(** * A shallow embedding of web_site_ut: the content parser of
    [website_generator.py], the environment builder of
    [environment_builder.py] and the commands of [main.py] built on it.

    Text is modelled as a list of ASCII characters (the code points below
    128 of a Python [str]); [str.lower] and [str.strip] are written out for
    that range. *)

From Stdlib Require Import Ascii String ZArith Lia Bool.
From stdpp Require Import base list gmap strings.

Local Open Scope list_scope.

Notation text := (list ascii).

(** A Python string literal. *)
Definition T (s : string) : text := list_ascii_of_string s.

Definition nl : ascii := "010"%char.
Definition dq : ascii := "034"%char.

Module Py.

(** [str.lower] on ASCII: only [A-Z] change. *)
Definition lower_char (c : ascii) : ascii :=
  let n := nat_of_ascii c in
  if (65 <=? n)%nat && (n <=? 90)%nat then ascii_of_nat (n + 32) else c.

Definition lower (s : text) : text := map lower_char s.

(** [str.isspace] on ASCII: tab, newline, vertical tab, form feed, carriage
    return, the four information separators and the space. *)
Definition is_space (c : ascii) : bool :=
  let n := nat_of_ascii c in
  ((9 <=? n)%nat && (n <=? 13)%nat) || ((28 <=? n)%nat && (n <=? 32)%nat).

Fixpoint lstrip (s : text) : text :=
  match s with
  | [] => []
  | c :: r => if is_space c then lstrip r else s
  end.

Definition rstrip (s : text) : text := rev (lstrip (rev s)).

(** [str.strip()] *)
Definition strip (s : text) : text := rstrip (lstrip s).

Fixpoint is_prefix (p s : text) : bool :=
  match p, s with
  | [], _ => true
  | _ :: _, [] => false
  | a :: p', b :: s' => bool_decide (a = b) && is_prefix p' s'
  end.

(** [p in s] *)
Fixpoint contains (p s : text) : bool :=
  is_prefix p s ||
  match s with
  | [] => false
  | _ :: s' => contains p s'
  end.

(** The pieces of [s] before and after the first occurrence of [p]. *)
Fixpoint split_first (p s : text) : option (text * text) :=
  if is_prefix p s then Some ([], drop (length p) s) else
  match s with
  | [] => None
  | c :: s' =>
      match split_first p s' with
      | Some (a, b) => Some (c :: a, b)
      | None => None
      end
  end.

(** [s.split(p)[1]]: the text between the first and the second occurrence
    of [p] (or the end of [s]); [None] is Python's [IndexError]. *)
Definition split_index1 (p s : text) : option text :=
  match split_first p s with
  | None => None
  | Some (_, rest) =>
      match split_first p rest with
      | Some (mid, _) => Some mid
      | None => Some rest
      end
  end.

(** [s.replace('-->', '')]: left to right, non-overlapping. *)
Fixpoint replace_arrow (s : text) : text :=
  match s with
  | c1 :: ((c2 :: c3 :: r) as s2) =>
      if bool_decide ([c1; c2; c3] = T "-->") then replace_arrow r
      else c1 :: replace_arrow s2
  | c :: r => c :: replace_arrow r
  | [] => []
  end.

(** [s.split(sep)] for a one-character separator. *)
Fixpoint split_on (sep : ascii) (s : text) : list text :=
  match s with
  | [] => [[]]
  | c :: r =>
      if bool_decide (c = sep) then [] :: split_on sep r else
      match split_on sep r with
      | l :: ls => (c :: l) :: ls
      | [] => [[c]]
      end
  end.

(** [s.split('\n')] *)
Definition split_nl (s : text) : list text := split_on nl s.

(** ['\n'.join(ls)] *)
Fixpoint join_nl (ls : list text) : text :=
  match ls with
  | [] => []
  | [l] => l
  | l :: ls' => l ++ nl :: join_nl ls'
  end.

(** Python truthiness of an optional string: [None] and [''] are false. *)
Definition truthy (o : option text) : bool :=
  match o with
  | Some (_ :: _) => true
  | _ => false
  end.

(** A Python [dict] from strings to strings, in insertion order: setting an
    existing key replaces its value in place, a new key goes at the end. *)
Fixpoint dict_set {V} (d : list (text * V)) (k : text) (v : V) : list (text * V) :=
  match d with
  | [] => [(k, v)]
  | (k', v') :: d' =>
      if bool_decide (k' = k) then (k, v) :: d' else (k', v') :: dict_set d' k v
  end.

Fixpoint dict_get {V} (d : list (text * V)) (k : text) : option V :=
  match d with
  | [] => None
  | (k', v') :: d' => if bool_decide (k' = k) then Some v' else dict_get d' k
  end.

Fixpoint string_of_pos_digits (fuel : nat) (n : N) (acc : text) : text :=
  match fuel with
  | O => acc
  | S f =>
      let d := ascii_of_N (48 + N.modulo n 10) in
      if (n <? 10)%N then d :: acc else string_of_pos_digits f (N.div n 10) (d :: acc)
  end.

(** [str(n)] for a Python [int]. *)
Definition str_of_Z (z : Z) : text :=
  let digits (n : N) := string_of_pos_digits (S (N.to_nat (N.log2 n))) n [] in
  match z with
  | Z0 => T "0"
  | Zpos p => digits (Npos p)
  | Zneg p => "-"%char :: digits (Npos p)
  end.

End Py.

(** ** [WebsiteGenerator._parse_generated_content] *)

Module Parser.
Import Py.

Definition markers : list text :=
  [T "filename:"; T "file:"; T "<!-- file:"; T "// file:"; T "# file:"].

(** [any(marker in line.lower() for marker in [...])] *)
Definition is_marker_line (line : text) : bool :=
  existsb (fun m => contains m (lower line)) markers.

(** The loop [for marker in [...]: if marker in line.lower():
    current_file = line.lower().split(marker)[1].strip().replace('-->', '').strip();
    break]; [None] when no marker matches (the loop leaves [current_file]
    as it was). *)
Fixpoint extract_with (ms : list text) (line : text) : option text :=
  match ms with
  | [] => None
  | m :: ms' =>
      if contains m (lower line) then
        match split_index1 m (lower line) with
        | Some piece => Some (strip (replace_arrow (strip piece)))
        | None => None
        end
      else extract_with ms' line
  end.

Definition extract_filename (line : text) : option text := extract_with markers line.

(** [line.strip().startswith('```')] *)
Definition is_fence (line : text) : bool := is_prefix (T "```") (strip line).

Record pstate := PState {
  files : list (text * text);
  current_file : option text;
  current_content : list text
}.

(** [if current_file and current_content:
        files[current_file] = '\n'.join(current_content)] *)
Definition commit (fs : list (text * text)) (cf : option text) (buf : list text)
    : list (text * text) :=
  match cf, buf with
  | Some ((_ :: _) as f), _ :: _ => dict_set fs f (join_nl buf)
  | _, _ => fs
  end.

(** One iteration of [for line in lines]. *)
Definition step (st : pstate) (line : text) : pstate :=
  if is_marker_line line then
    PState (commit (files st) (current_file st) (current_content st))
           (match extract_filename line with
            | Some f => Some f
            | None => current_file st
            end)
           []
  else if is_fence line && truthy (current_file st) then st
  else if truthy (current_file st) then
    PState (files st) (current_file st) (current_content st ++ [line])
  else st.

Definition init : pstate := PState [] None [].

Definition scan (lines : list text) : pstate := fold_left step lines init.

(** The loop followed by [# Save last file]. *)
Definition parse_lines (lines : list text) : list (text * text) :=
  let st := scan lines in commit (files st) (current_file st) (current_content st).

(** [WebsiteGenerator._create_default_website_structure] *)
Definition index_html_pre : text :=
  T "<!DOCTYPE html>
<html lang=" ++ [dq] ++ T "en" ++ [dq] ++ T ">
<head>
    <meta charset=" ++ [dq] ++ T "UTF-8" ++ [dq] ++ T ">
    <meta name=" ++ [dq] ++ T "viewport" ++ [dq] ++ T " content=" ++ [dq]
  ++ T "width=device-width, initial-scale=1.0" ++ [dq] ++ T ">
    <title>Test Merchant Site</title>
    <link rel=" ++ [dq] ++ T "stylesheet" ++ [dq] ++ T " href=" ++ [dq]
  ++ T "styles.css" ++ [dq] ++ T ">
</head>
<body>
    <h1>Test Merchant Website</h1>
    <p>Generated content:</p>
    <pre>".

Definition index_html_post : text :=
  T "...</pre>
    <script src=" ++ [dq] ++ T "script.js" ++ [dq] ++ T "></script>
</body>
</html>".

Definition default_styles_css : text := T "
body {
    font-family: Arial, sans-serif;
    margin: 0;
    padding: 20px;
    background-color: #f5f5f5;
}

h1 {
    color: #333;
    text-align: center;
}

pre {
    background: #fff;
    padding: 15px;
    border-radius: 5px;
    box-shadow: 0 2px 5px rgba(0,0,0,0.1);
}".

Definition default_script_js : text := T "
// Basic anti-crawler functionality
console.log('Website loaded');

// Simple rate limiting
let requestCount = 0;
const MAX_REQUESTS = 10;

function checkRateLimit() {
    requestCount++;
    if (requestCount > MAX_REQUESTS) {
        alert('Too many requests!');
        return false;
    }
    return true;
}

// User agent detection
if (navigator.userAgent.includes('bot') || navigator.userAgent.includes('crawler')) {
    console.warn('Bot detected!');
}".

Definition create_default_website_structure (content : text) : list (text * text) :=
  [(T "index.html", index_html_pre ++ firstn 1000 content ++ index_html_post);
   (T "styles.css", default_styles_css);
   (T "script.js", default_script_js)].

(** [WebsiteGenerator._parse_generated_content] *)
Definition parse_generated_content (response : text) : list (text * text) :=
  match parse_lines (split_nl response) with
  | [] => create_default_website_structure response
  | fs => fs
  end.

End Parser.


(** ** [environment_builder.py]: the file system, the server registry and
    the effects of [EnvironmentBuilder] and [LocalWebServer]. *)

Module Env.
Import Py.

(** An absolute path as its list of segments; [[]] is the root. *)
Notation path := (list text).

Inductive node := Dir | File (content : text).

#[global] Instance node_eq_dec : EqDecision node.
Proof. solve_decision. Defined.

Inductive error :=
  | FileNotFoundError
  | NotADirectoryError
  | FileExistsError
  | IsADirectoryError
  | ValueError (msg : text)
  | RuntimeError (msg : text)
  | GenerationError.

(** Effects outside the file system: a listener bound, a listener shut
    down, a directory tree removed. *)
Inductive event :=
  | EvServe (port : Z) (dir : path)
  | EvShutdown (port : Z)
  | EvRmtree (p : path).

(** A [LocalWebServer] object: [has_server] is [self.server is not None]. *)
Record server := Server {
  directory : path;
  port : Z;
  has_server : bool;
  is_running : bool
}.

Record state := State {
  fs : gmap path node;
  active_servers : gmap text server;
  log : list event
}.

Inductive result (A : Type) := Ok (a : A) | Err (e : error).
Arguments Ok {A} a.
Arguments Err {A} e.

(** Python statements: state passing with exceptions; an exception keeps
    the effects performed before it. *)
Definition M (A : Type) : Type := state -> state * result A.

Definition ret {A} (a : A) : M A := fun s => (s, Ok a).
Definition raise {A} (e : error) : M A := fun s => (s, Err e).
Definition bind {A B} (m : M A) (k : A -> M B) : M B :=
  fun s => match m s with
           | (s', Ok a) => k a s'
           | (s', Err e) => (s', Err e)
           end.

Notation "'let!' x ':=' m 'in' k" := (bind m (fun x => k))
  (at level 200, x name, m at level 100, k at level 200).

Definition get_fs : M (gmap path node) := fun s => (s, Ok (fs s)).
Definition get_servers : M (gmap text server) := fun s => (s, Ok (active_servers s)).
Definition set_servers (r : gmap text server) : M unit :=
  fun s => (State (fs s) r (log s), Ok tt).
Definition emit (e : event) : M unit :=
  fun s => (State (fs s) (active_servers s) (log s ++ [e]), Ok tt).

(** A file-system primitive that either fails or yields the new tree. *)
Definition lift_fs (f : gmap path node -> result (gmap path node)) : M unit :=
  fun s => match f (fs s) with
           | Ok m => (State m (active_servers s) (log s), Ok tt)
           | Err e => (s, Err e)
           end.

(** *** Paths *)

(** pathlib's [PurePosixPath]: [''] and ['.'] segments vanish. *)
Definition pure_segs (segs : list text) : list text :=
  filter (fun x => x <> [] /\ x <> T ".") segs.

(** [base / name]; an absolute [name] replaces [base]. *)
Definition join (base : path) (name : text) : path :=
  match name with
  | "/"%char :: _ => pure_segs (split_on "/" name)
  | _ => base ++ pure_segs (split_on "/" name)
  end.

(** [Path.parent] (lexical). *)
Definition parent (p : path) : path := removelast p.

Definition node_at (m : gmap path node) (p : path) : option node :=
  match p with
  | [] => Some Dir
  | _ => m !! p
  end.

Definition step_seg (cur : path) (x : text) : path :=
  if bool_decide (x = T "..") then removelast cur
  else if bool_decide (x = [] \/ x = T ".") then cur
  else cur ++ [x].

(** The kernel's path resolution: each segment is looked up in the
    directory reached so far, which must exist and be a directory. *)
Fixpoint walk (m : gmap path node) (cur : path) (segs : list text) : result path :=
  match segs with
  | [] => Ok cur
  | x :: rest =>
      match node_at m cur with
      | Some Dir => walk m (step_seg cur x) rest
      | Some (File _) => Err NotADirectoryError
      | None => Err FileNotFoundError
      end
  end.

Definition os_resolve (m : gmap path node) (raw : path) : result path := walk m [] raw.

(** [Path.exists()] *)
Definition exists_b (m : gmap path node) (raw : path) : bool :=
  match os_resolve m raw with
  | Ok p => bool_decide (is_Some (node_at m p))
  | Err _ => false
  end.

(** [Path.is_dir()] *)
Definition is_dir_b (m : gmap path node) (raw : path) : bool :=
  match os_resolve m raw with
  | Ok p => bool_decide (node_at m p = Some Dir)
  | Err _ => false
  end.

(** *** File-system primitives *)

(** [os.mkdir(raw)] *)
Definition os_mkdir (m : gmap path node) (raw : path) : result (gmap path node) :=
  match os_resolve m raw with
  | Err e => Err e
  | Ok p =>
      match node_at m p with
      | Some _ => Err FileExistsError
      | None => Ok (<[p := Dir]> m)
      end
  end.

(** [Path.mkdir(exist_ok=True)] *)
Definition mkdir_exist_ok_fs (m : gmap path node) (raw : path) : result (gmap path node) :=
  match os_mkdir m raw with
  | Ok m' => Ok m'
  | Err FileNotFoundError => Err FileNotFoundError
  | Err e => if is_dir_b m raw then Ok m else Err e
  end.

(** [Path.mkdir(parents=True, exist_ok=True)], by recursion on the path
    given in reverse ([rraw = rev raw]). *)
Fixpoint mkdir_parents_rev (m : gmap path node) (rraw : list text) : result (gmap path node) :=
  match os_mkdir m (rev rraw) with
  | Ok m' => Ok m'
  | Err FileNotFoundError =>
      match rraw with
      | [] => Err FileNotFoundError
      | _ :: rparent =>
          match mkdir_parents_rev m rparent with
          | Ok m1 => mkdir_exist_ok_fs m1 (rev rraw)
          | Err e => Err e
          end
      end
  | Err e => if is_dir_b m (rev rraw) then Ok m else Err e
  end.

(** [open(raw, 'w').write(content)] *)
Definition open_write_fs (m : gmap path node) (raw : path) (content : text)
    : result (gmap path node) :=
  match os_resolve m raw with
  | Err e => Err e
  | Ok p =>
      match node_at m p with
      | Some Dir => Err IsADirectoryError
      | _ => Ok (<[p := File content]> m)
      end
  end.

Definition mkdir_exist_ok (raw : path) : M unit := lift_fs (fun m => mkdir_exist_ok_fs m raw).
Definition mkdir_parents (raw : path) : M unit := lift_fs (fun m => mkdir_parents_rev m (rev raw)).
Definition open_write (raw : path) (content : text) : M unit :=
  lift_fs (fun m => open_write_fs m raw content).
Definition path_exists (raw : path) : M bool := fun s => (s, Ok (exists_b (fs s) raw)).

(** [shutil.rmtree(raw)]: the directory and everything below it. *)
Definition rmtree (raw : path) : M unit :=
  fun s =>
    match os_resolve (fs s) raw with
    | Err e => (s, Err e)
    | Ok p =>
        match node_at (fs s) p with
        | None => (s, Err FileNotFoundError)
        | Some (File _) => (s, Err NotADirectoryError)
        | Some Dir =>
            (State (filter (fun kv => ~ p `prefix_of` kv.1) (fs s))
                   (active_servers s) (log s ++ [EvRmtree p]), Ok tt)
        end
    end.

(** *** [LocalWebServer] and [EnvironmentBuilder] *)

(** [os.listdir(p)] for a directory [p]: the last segment of every entry
    one level below [p], in no particular order. *)
Definition listdir (m : gmap path node) (p : path) : list text :=
  omap (fun kv : path * node =>
          match rev kv.1 with
          | x :: r => if bool_decide (rev r = p) then Some x else None
          | [] => None
          end) (map_to_list m).

(** [q] lies strictly below [p] and every path strictly between them is a
    directory: [q] is reached by walking down from [p]. *)
Definition reached (m : gmap path node) (p q : path) : Prop :=
  p `prefix_of` q /\ length p < length q
  /\ Forall (fun i => m !! take i q = Some Dir) (seq (S (length p)) (length q - S (length p))).

(** [str] of a relative path: its segments joined by ['/']. *)
Fixpoint join_slash (ls : list text) : text :=
  match ls with
  | [] => []
  | [l] => l
  | l :: ls' => l ++ "/"%char :: join_slash ls'
  end.

(** [[str(f.relative_to(env_path)) for f in env_path.rglob('*') if f.is_file()]]
    for an [env_path] resolving to the directory [p], in no particular order. *)
Definition rglob_files (m : gmap path node) (p : path) : list text :=
  omap (fun kv : path * node =>
          match kv.2 with
          | File _ => if bool_decide (reached m p kv.1)
                      then Some (join_slash (drop (length p) kv.1)) else None
          | Dir => None
          end) (map_to_list m).

(** The dictionary returned by [get_environment_info]. *)
Record env_info := EnvInfo {
  info_name : text;
  info_path : path;
  info_exists : bool;
  info_server_running : bool;
  info_server_url : option text;
  info_files : list text
}.


Section Builder.

(** [self.base_directory], as an absolute path. *)
Variable base_directory : path.

(** The network as the code observes it: [port_in_use p] is
    [sock.connect_ex(('localhost', p)) == 0], and [can_bind p] says whether
    [HTTPServer(('localhost', p), ...)] succeeds. *)
Variable port_in_use : Z -> bool.
Variable can_bind : Z -> bool.

Fixpoint probe (fuel : nat) (p : Z) : option Z :=
  match fuel with
  | O => None
  | S f => if negb (port_in_use p) then Some p else probe f (p + 1)
  end.

(** [LocalWebServer.find_free_port]: [while port < 65535] runs for
    [start_port, ..., 65534]; [None] is [RuntimeError("No free ports available")].
    [port_in_use] is only meaningful on [0 .. 65535]: for a port outside it
    [connect_ex] raises [OverflowError]. The code calls [find_free_port] only
    from [start], with [self.port + 1] after [connect_ex] accepted
    [self.port], so with a start of at least 1; properties of
    [find_free_port] on its own assume [0 <= start_port]. *)
Definition find_free_port (start_port : Z) : option Z :=
  probe (Z.to_nat (65535 - start_port)) start_port.

(** [LocalWebServer.start]: the updated object and the port it returns.
    A failure of [find_free_port] is swallowed by the bare [except]. *)
Definition server_start (srv : server) : M (server * Z) :=
  if is_running srv then ret (srv, port srv) else
  let p := if port_in_use (port srv)
           then match find_free_port (port srv + 1) with
                | Some q => q
                | None => port srv
                end
           else port srv in
  if can_bind p then
    let! _ := emit (EvServe p (directory srv)) in
    ret (Server (directory srv) p true true, p)
  else raise (RuntimeError (T "Failed to start server")).

(** [LocalWebServer.stop] *)
Definition server_stop (srv : server) : M server :=
  if has_server srv then
    let! _ := emit (EvShutdown (port srv)) in
    ret (Server (directory srv) (port srv) true false)
  else ret srv.

Definition url_of_port (p : Z) : text := T "http://localhost:" ++ str_of_Z p.

(** [LocalWebServer.get_url] *)
Definition get_url (srv : server) : option text :=
  if is_running srv then Some (url_of_port (port srv)) else None.

Definition subdirs : list text :=
  [T "static"; T "templates"; T "assets"; T "css"; T "js"; T "images"].

(** [EnvironmentBuilder.create_test_environment] *)
Definition create_test_environment (name : text) (clean : bool) : M path :=
  let env_path := join base_directory name in
  let! ex := path_exists env_path in
  let! _ := (if ex && clean then rmtree env_path else ret tt) in
  let! _ := mkdir_exist_ok env_path in
  let! _ := mkdir_exist_ok (env_path ++ [T "static"]) in
  let! _ := mkdir_exist_ok (env_path ++ [T "templates"]) in
  let! _ := mkdir_exist_ok (env_path ++ [T "assets"]) in
  let! _ := mkdir_exist_ok (env_path ++ [T "css"]) in
  let! _ := mkdir_exist_ok (env_path ++ [T "js"]) in
  let! _ := mkdir_exist_ok (env_path ++ [T "images"]) in
  ret env_path.

(** [EnvironmentBuilder.create_website_files]: the dictionary in its
    iteration order. *)
Fixpoint create_website_files (env_path : path) (website_content : list (text * text)) : M unit :=
  match website_content with
  | [] => ret tt
  | (filename, content) :: rest =>
      let file_path := join env_path filename in
      let! _ := mkdir_parents (parent file_path) in
      let! _ := open_write file_path content in
      create_website_files env_path rest
  end.

(** [EnvironmentBuilder.start_local_server]; the result is the optional
    string returned by the method ([get_url] may return [None]). *)
Definition start_local_server (env_name : text) (port_arg : option Z) : M (option text) :=
  let env_path := join base_directory env_name in
  let! ex := path_exists env_path in
  if negb ex then raise (ValueError (T "Environment does not exist")) else
  let! reg := get_servers in
  match reg !! env_name with
  | Some srv => ret (get_url srv)
  | None =>
      let p := match port_arg with
               | Some q => if Z.eqb q 0 then 8000%Z else q
               | None => 8000%Z
               end in
      let! r := server_start (Server env_path p false false) in
      let! reg' := get_servers in
      let! _ := set_servers (<[env_name := r.1]> reg') in
      ret (Some (url_of_port r.2))
  end.

(** [EnvironmentBuilder.stop_local_server] *)
Definition stop_local_server (env_name : text) : M unit :=
  let! reg := get_servers in
  match reg !! env_name with
  | Some srv =>
      let! _ := server_stop srv in
      let! reg' := get_servers in
      set_servers (delete env_name reg')
  | None => ret tt
  end.

(** [EnvironmentBuilder.cleanup_environment] *)
Definition cleanup_environment (env_name : text) : M unit :=
  let! _ := stop_local_server env_name in
  let env_path := join base_directory env_name in
  let! ex := path_exists env_path in
  if ex then rmtree env_path else ret tt.

(** The loop of [EnvironmentBuilder.stop_all_servers] over [names], the
    keys taken before it starts. *)
Fixpoint stop_servers (names : list text) : M unit :=
  match names with
  | [] => ret tt
  | n :: ns => let! _ := stop_local_server n in stop_servers ns
  end.

(** [EnvironmentBuilder.stop_all_servers]: [list(self.active_servers.keys())];
    the registry is kept without its insertion order, and [map_to_list]
    stands for it. *)
Definition stop_all_servers : M unit :=
  let! reg := get_servers in stop_servers (map fst (map_to_list reg)).

(** [EnvironmentBuilder.list_environments]: [self.base_directory.iterdir()]
    fails as [os.listdir] does; [d.is_dir()] is asked of
    [base_directory / name]. *)
Definition list_environments : M (list text) :=
  fun s =>
    match os_resolve (fs s) base_directory with
    | Err e => (s, Err e)
    | Ok p =>
        match node_at (fs s) p with
        | Some Dir =>
            (s, Ok (List.filter (fun x => is_dir_b (fs s) (base_directory ++ [x]))
                      (listdir (fs s) p)))
        | Some (File _) => (s, Err NotADirectoryError)
        | None => (s, Err FileNotFoundError)
        end
    end.

(** [EnvironmentBuilder.get_environment_info]; [rglob] yields nothing below
    a path that is not a directory. *)
Definition get_environment_info (env_name : text) : M env_info :=
  let env_path := join base_directory env_name in
  let! ex := path_exists env_path in
  if negb ex then raise (ValueError (T "Environment does not exist")) else
  let! reg := get_servers in
  let! m := get_fs in
  let files :=
    match os_resolve m env_path with
    | Ok p => if bool_decide (node_at m p = Some Dir) then rglob_files m p else []
    | Err _ => []
    end in
  ret (EnvInfo env_name env_path (exists_b m env_path)
         (bool_decide (is_Some (reg !! env_name)))
         (match reg !! env_name with
          | Some srv => get_url srv
          | None => None
          end)
         files).

End Builder.

End Env.

(** ** [website_generator.py]: generation and deployment *)

Module Generator.
Import Py Env.

(** The JSON values stored in the metadata dictionary. *)
Inductive jvalue := JStr (s : text) | JNull.

(** [f"{value}"] *)
Definition jvalue_str (v : jvalue) : text :=
  match v with
  | JStr s => s
  | JNull => T "None"
  end.

(** The dictionary built by [generate_website_from_prompt]. *)
Record website_data := WebsiteData {
  wd_files : list (text * text);
  wd_metadata : list (text * jvalue);
  wd_raw_response : text
}.

(** The dictionary returned by [generate_and_deploy]. *)
Record deployment := Deployment {
  dep_website_data : website_data;
  dep_server_url : option text;
  dep_environment_name : text;
  dep_success : bool
}.

Definition default_system_prompt : text := T "
        You are an expert web developer specializing in creating realistic e-commerce websites for testing purposes.

        Your task is to generate complete, functional websites with the following characteristics:
        - Realistic product listings and data
        - Professional styling and layout
        - Implement specified anti-crawler methods effectively
        - Include multiple pages (home, products, about, contact)
        - Use modern web technologies (HTML5, CSS3, JavaScript)
        - Make the website look and feel like a real merchant site

        Anti-crawler methods to implement when requested:
        - rate_limiting: Add JavaScript to track request frequency
        - user_agent_detection: Check for common bot user agents
        - javascript_rendering: Require JS to load content
        - captcha_challenges: Add CAPTCHA-like challenges
        - dynamic_content_loading: Load content dynamically with AJAX
        - session_tracking: Track user sessions
        - ip_blocking: Simulate IP-based blocking
        - honeypot_links: Add hidden links to catch bots

        Return the complete code for each file clearly separated and labeled.
        ".

Definition generation_instructions : text := T "

Please generate a complete, functional website based on the user's request. Include:
1. HTML files (at minimum index.html, plus any other pages that make sense)
2. CSS file for styling
3. JavaScript file for functionality
4. Any data files (JSON/XML) if needed for content
5. robots.txt if appropriate

Make the website realistic and functional for testing purposes.
".

Section Generator.

Variable base_directory : path.
Variable port_in_use : Z -> bool.
Variable can_bind : Z -> bool.

(** [SystemPromptReader.get_prompt]; [None] is its [KeyError]. *)
Variable get_prompt : text -> option text.
(** [OpenAIConnector.generate_text(prompt, system_prompt=..., temperature=0.7,
    max_tokens=4000)]; [None] is a failure of the backend. *)
Variable generate_text : text -> text -> option text.
(** [json.dump(metadata, f, indent=2)] *)
Variable json_dump : list (text * jvalue) -> text.
(** [str(Path().resolve())] *)
Variable cwd : text.

(** [WebsiteGenerator.generate_website_from_prompt] *)
Definition generate_website_from_prompt (user_prompt : text) (additional_requirements : option text)
    : M website_data :=
  let system_prompt :=
    match get_prompt (T "flexible_website_generator") with
    | Some sp => sp
    | None => default_system_prompt
    end in
  let full_prompt := T "User Request: " ++ user_prompt in
  let full_prompt :=
    if truthy additional_requirements then
      full_prompt ++ [nl; nl] ++ T "Additional Requirements: "
        ++ default [] additional_requirements
    else full_prompt in
  let full_prompt := full_prompt ++ generation_instructions in
  match generate_text full_prompt system_prompt with
  | None => raise GenerationError
  | Some response =>
      let website_files := Parser.parse_generated_content response in
      let metadata :=
        [(T "user_prompt", JStr user_prompt);
         (T "additional_requirements",
           match additional_requirements with Some a => JStr a | None => JNull end);
         (T "generation_timestamp", JStr cwd)] in
      ret (WebsiteData website_files metadata response)
  end.

(** [WebsiteGenerator.deploy_to_local_environment]; [rnd] is the value
    drawn by [random.randint(1000, 9999)]. *)
Definition deploy_to_local_environment (wd : website_data) (env_name : option text)
    (port_arg : option Z) (rnd : Z) : M (option text) :=
  let env_name :=
    match env_name with
    | Some n => n
    | None =>
        let merchant_type :=
          match dict_get (wd_metadata wd) (T "merchant_type") with
          | Some v => jvalue_str v
          | None => T "merchant"
          end in
        merchant_type ++ T "_test_" ++ str_of_Z rnd
    end in
  let! env_path := create_test_environment base_directory env_name true in
  let! _ := create_website_files env_path (wd_files wd) in
  let! _ := open_write (env_path ++ [T "metadata.json"]) (json_dump (wd_metadata wd)) in
  start_local_server base_directory port_in_use can_bind env_name port_arg.

(** [WebsiteGenerator.generate_and_deploy] *)
Definition generate_and_deploy (user_prompt : text) (additional_requirements : option text)
    (env_name : option text) (port_arg : option Z) (rnd : Z) : M deployment :=
  let! wd := generate_website_from_prompt user_prompt additional_requirements in
  let! server_url := deploy_to_local_environment wd env_name port_arg rnd in
  ret (Deployment wd server_url
         (if truthy env_name then default [] env_name else T "generated_test")
         true).

End Generator.

End Generator.

(** ** [main.py]: the commands of [WebCrawlerUTSystem] *)

Module App.
Import Py Env.

Section App.

Variable base_directory : path.

(** The loop [for env in environments: self.env_builder.cleanup_environment(env)]. *)
Fixpoint cleanup_all (envs : list text) : M unit :=
  match envs with
  | [] => ret tt
  | e :: es => let! _ := cleanup_environment base_directory e in cleanup_all es
  end.

(** [WebCrawlerUTSystem.remove_all_environments]; an exception raised by the
    loop is the error the method prints. *)
Definition remove_all_environments : M unit :=
  let! envs := list_environments base_directory in
  cleanup_all envs.

(** The loop [for env in environments: info = self.env_builder.get_environment_info(env)]. *)
Fixpoint describe_all (envs : list text) : M (list env_info) :=
  match envs with
  | [] => ret []
  | e :: es =>
      let! i := get_environment_info base_directory e in
      let! is := describe_all es in
      ret (i :: is)
  end.

(** [WebCrawlerUTSystem.list_environments]: the information printed for
    each environment. *)
Definition list_command : M (list env_info) :=
  let! envs := list_environments base_directory in
  describe_all envs.

End App.

End App.

(** * Notions used to state the properties *)

Module Notions.
Import Py Parser Env Generator.

Definition nonfence (l : text) : bool := negb (is_fence l).

(** A block of [lines]: a marker line naming [k], then non-marker lines
    [c] of which at least one is not a fence, then [post]; [v] is the
    content the parser makes of it. *)
Definition block_in (lines : list text) (k v : text) (post : list text) : Prop :=
  exists pre m c,
    lines = pre ++ m :: c ++ post
    /\ is_marker_line m = true /\ extract_filename m = Some k /\ k <> []
    /\ Forall (fun l => is_marker_line l = false) c
    /\ List.filter nonfence c <> []
    /\ v = join_nl (List.filter nonfence c).

(** A block that ends at the next marker line or at the end of the input. *)
Definition stored_block (lines : list text) (k v : text) : Prop :=
  exists post, block_in lines k v post
    /\ (post = [] \/ exists m' p', post = m' :: p' /\ is_marker_line m' = true).

Definition sp : ascii := " "%char.

(** ** The encoding of a file set as a model response *)

(** The marker styles the parser recognises, with a file name [k]. *)
Inductive marker_style := StyleFile | StyleFilename | StyleHash | StyleSlashes | StyleHtml.

Definition marker_line (st : marker_style) (k : text) : text :=
  match st with
  | StyleFile => T "File: " ++ k
  | StyleFilename => T "Filename: " ++ k
  | StyleHash => T "# File: " ++ k
  | StyleSlashes => T "// File: " ++ k
  | StyleHtml => T "<!-- File: " ++ k ++ T " -->"
  end.

Definition fence : text := T "```".

(** A marker line, an opening fence, the content, a closing fence. *)
Definition encode_entry (st : marker_style) (e : text * text) : list text :=
  [marker_line st e.1; fence] ++ split_nl e.2 ++ [fence].

Definition encode (st : marker_style) (fs : list (text * text)) : text :=
  join_nl (concat (map (encode_entry st) fs)).

(** A key the heuristic reads back unchanged: non-empty, lower case, no
    surrounding white space, no newline, no [-->], no marker substring. *)
Definition good_key (k : text) : Prop :=
  k <> [] /\ lower k = k /\ strip k = k /\ ~ In nl k /\ replace_arrow k = k
  /\ is_marker_line k = false.

(** Content no line of which is a marker line or a fence line. *)
Definition good_content (c : text) : Prop :=
  Forall (fun l => is_marker_line l = false /\ is_fence l = false) (split_nl c).

Definition finish (s : pstate) : list (text * text) :=
  commit (files s) (current_file s) (current_content s).

(** Two files written in a given marker style. *)
Definition ex_files : list (text * text) :=
  [(T "index.html", T "<h1>Hi</h1>"); (T "styles.css", T "body{color:red}")].

(** Every entry of [m] is an entry of [m']. *)
Definition sub (m m' : gmap path node) : Prop := forall q v, m !! q = Some v -> m' !! q = Some v.

(** The path [os_resolve] reaches when it succeeds. *)
Definition lex (raw : path) : path := fold_left step_seg raw [].

(** Successive [mkdir(exist_ok=True)] calls. *)
Fixpoint mkdirs (m : gmap path node) (raws : list path) : result (gmap path node) :=
  match raws with
  | [] => Ok m
  | r :: rs =>
      match mkdir_exist_ok_fs m r with
      | Ok m' => mkdirs m' rs
      | Err e => Err e
      end
  end.

(** The root of an environment and its six subdirectories. *)
Definition skeleton (p : path) : list path := p :: map (fun d => p ++ [d]) subdirs.

(** ** Concrete scenarios *)

(** [/w/test_environments], holding the environment [shop]. *)
Definition w_base : path := [T "w"; T "test_environments"].
Definition w_env : path := [T "w"; T "test_environments"; T "shop"].
Definition w_fs : gmap path node := <[w_env := Dir]> (<[w_base := Dir]> (<[[T "w"] := Dir]> ∅)).
Definition w_state : state := State w_fs ∅ [].

(** Port 8000 taken and the others free; every port free; binding works. *)
Definition w_in_use (p : Z) : bool := Z.eqb p 8000.
Definition w_free (p : Z) : bool := false.
Definition w_can_bind (p : Z) : bool := true.

(** The state once [shop] is served. *)
Definition w_started : state :=
  (start_local_server w_base w_in_use w_can_bind (T "shop") None w_state).1.
Definition w_server : server := Server w_env 8001 true true.
Definition w_cleaned : state := (cleanup_environment w_base (T "shop") w_started).1.

(** [shop] holding an earlier page, and the state after a clean re-creation. *)
Definition w_state_old : state := State (<[w_env ++ [T "old.html"] := File (T "x")]> w_fs) ∅ [].
Definition w_created : state := (create_test_environment w_base (T "shop") true w_state_old).1.

(** A regular file [notes] among the environments. *)
Definition w_state_file : state := State (<[w_base ++ [T "notes"] := File (T "x")]> w_fs) ∅ [].

(** [/w/etc] exists. *)
Definition w_state_etc : state := State (<[[T "w"; T "etc"] := Dir]> w_fs) ∅ [].
Definition w_passwd : path := [T "w"; T "etc"; T "passwd"].

(** The collaborators of the generator. *)
Definition w_prompt (n : text) : option text := None.
Definition w_response : text := T "File: index.html" ++ nl :: T "<h1>Hi</h1>".
Definition w_generate (prompt system : text) : option text := Some w_response.
Definition w_dump (md : list (text * jvalue)) : text := T "{}".
Definition w_cwd : text := T "/w".
Definition w_deployment : deployment :=
  Deployment
    (WebsiteData [(T "index.html", T "<h1>Hi</h1>")]
       [(T "user_prompt", JStr (T "a shoe shop")); (T "additional_requirements", JNull);
        (T "generation_timestamp", JStr w_cwd)] w_response)
    (Some (T "http://localhost:8000")) (T "generated_test") true.
Definition w_deployed : state :=
  (generate_and_deploy w_base w_free w_can_bind w_prompt w_generate w_dump w_cwd
     (T "a shoe shop") None None None 1234 w_state).1.


(** ** Plain names and paths *)

(** A path segment the kernel takes literally: not empty, not [.] or
    [..], with no separator; a tree all of whose paths are made of them. *)
Definition plain_seg (x : text) : Prop :=
  x <> [] /\ x <> T "." /\ x <> T ".." /\ ~ In "/"%char x.

Definition plain_keys (m : gmap path node) : Prop :=
  forall q v, m !! q = Some v -> Forall plain_seg q.

(** A string all of whose characters are already lower case. *)
Definition lower_fixed (s : text) : Prop := Forall (fun c => lower_char c = c) s.

(** A file name as the parser produces it. *)
Definition good_name (k : text) : Prop := k <> [] /\ lower k = k /\ strip k = k.

(** The shutdown event [stop_local_server(n)] emits for the registry [reg]. *)
Definition shutdown_of (reg : gmap text server) (n : text) : list event :=
  match reg !! n with
  | Some srv => if has_server srv then [EvShutdown (port srv)] else []
  | None => []
  end.

(** ** More scenarios *)

Definition w_state2 : state := State (<[w_base ++ [T "cafe"] := Dir]> w_fs) ∅ [].
Definition w_two_started : state :=
  (start_local_server w_base w_in_use w_can_bind (T "cafe") (Some 9000%Z)
     (start_local_server w_base w_in_use w_can_bind (T "shop") None w_state2).1).1.
Definition w_removed : state := (App.remove_all_environments w_base w_state2).1.
Definition w_site_files : list (text * text) :=
  [(T "index.html", T "<h1>Hi</h1>"); (T "css/style.css", T "h1 {}");
   (T "index.html", T "<h1>Shoes</h1>")].
Definition w_site : state := (create_website_files w_env w_site_files w_state).1.
Definition w_site2 : state := (create_website_files w_env w_site_files w_created).1.
Definition w_wd : website_data := dep_website_data w_deployment.
Definition w_shop_deployed : state :=
  (deploy_to_local_environment w_base w_in_use w_can_bind w_dump w_wd (Some (T "shop")) None 1234
     w_state).1.

End Notions.

Example spec_scenario :
  Parser.parse_generated_content
    (T "Filename: index.html
```
<h1>Hi</h1>
```
File: styles.css
body{color:red}")
  = [(T "index.html", T "<h1>Hi</h1>"); (T "styles.css", T "body{color:red}")].
Proof. vm_compute. reflexivity. Qed.

(** * Properties of the content parser *)

Module ParserFacts.
Import Py Parser Notions.

Lemma split_first_some p s :
  contains p s = true -> exists a b, split_first p s = Some (a, b).
Proof.
  induction s as [|c s IH]; simpl; intros H.
  - destruct p; simpl in *; [eauto|discriminate].
  - destruct (is_prefix p (c :: s)) eqn:Hp; [eauto|].
    simpl in H. destruct (IH H) as (a & b & ->). eauto.
Qed.

Lemma extract_with_some ms line :
  existsb (fun m => contains m (lower line)) ms = true ->
  exists f, extract_with ms line = Some f.
Proof.
  induction ms as [|m ms IH]; simpl; [discriminate|].
  destruct (contains m (lower line)) eqn:Hc; simpl; intros H.
  - destruct (split_first_some _ _ Hc) as (a & b & Hs).
    unfold split_index1. rewrite Hs.
    destruct (split_first m b) as [[x y]|]; eauto.
  - by apply IH.
Qed.

Lemma extract_filename_some line :
  is_marker_line line = true -> exists f, extract_filename line = Some f.
Proof. apply extract_with_some. Qed.

Lemma step_marker st l f :
  is_marker_line l = true -> extract_filename l = Some f ->
  step st l = PState (commit (files st) (current_file st) (current_content st)) (Some f) [].
Proof. intros Hm He. unfold step. by rewrite Hm, He. Qed.

(** Lines that are not markers only grow the buffer of an open file. *)
Lemma fold_open_block c fs f buf :
  f <> [] -> Forall (fun l => is_marker_line l = false) c ->
  fold_left step c (PState fs (Some f) buf)
  = PState fs (Some f) (buf ++ List.filter nonfence c).
Proof.
  intros Hf. revert buf. induction c as [|l c IH]; intros buf Hc; simpl.
  - by rewrite app_nil_r.
  - inversion Hc as [|? ? Hl Hc']; subst.
    unfold step at 2. rewrite Hl. destruct f as [|x f]; [congruence|]. simpl.
    unfold nonfence. destruct (is_fence l); simpl.
    + by apply IH.
    + rewrite IH by done. by rewrite <- app_assoc.
Qed.

(** Without a marker no file is ever opened. *)
Lemma fold_no_marker lines :
  Forall (fun l => is_marker_line l = false) lines ->
  fold_left step lines init = init.
Proof.
  induction lines as [|l lines IH]; intros H; simpl; [done|].
  inversion H as [|? ? Hl H']; subst.
  unfold step at 2. rewrite Hl. simpl. rewrite andb_false_r. by apply IH.
Qed.

Lemma dict_get_set {V} (d : list (text * V)) k v k' :
  dict_get (dict_set d k v) k' = if bool_decide (k = k') then Some v else dict_get d k'.
Proof.
  induction d as [|[k0 v0] d IH]; [done|].
  simpl. destruct (bool_decide (k0 = k)) eqn:E1; simpl.
  - apply bool_decide_eq_true in E1. subst k0.
    by destruct (bool_decide (k = k')).
  - rewrite IH. apply bool_decide_eq_false in E1.
    destruct (bool_decide (k0 = k')) eqn:E2; [|done].
    apply bool_decide_eq_true in E2. subst k0.
    by rewrite bool_decide_false by congruence.
Qed.

Lemma dict_get_nil_inv {V} (d : list (text * V)) k v : dict_get d k = Some v -> d <> [].
Proof. by destruct d. Qed.

(** Steps over lines none of which is a marker naming [f] keep the entry
    stored for [f]. *)
Lemma fold_keeps_entry lines st f v :
  dict_get (files st) f = Some v -> current_file st <> Some f ->
  Forall (fun l => is_marker_line l = true -> extract_filename l <> Some f) lines ->
  dict_get (files (fold_left step lines st)) f = Some v
  /\ current_file (fold_left step lines st) <> Some f.
Proof.
  revert st. induction lines as [|l lines IH]; intros st Hv Hcf Hl; simpl; [done|].
  inversion Hl as [|? ? Hl0 Hl']; subst. apply IH; [| |done].
  - unfold step. destruct (is_marker_line l) eqn:Hm.
    + simpl. unfold commit.
      destruct (current_file st) as [[|x g]|]; [done| |done].
      destruct (current_content st); [done|].
      rewrite dict_get_set. case_bool_decide; [congruence|done].
    + destruct (is_fence l && truthy (current_file st)); [done|].
      destruct (truthy (current_file st)); done.
  - unfold step. destruct (is_marker_line l) eqn:Hm.
    + simpl. destruct (extract_filename_some l Hm) as [g Hg]. rewrite Hg.
      specialize (Hl0 eq_refl). congruence.
    + destruct (is_fence l && truthy (current_file st)); [done|].
      destruct (truthy (current_file st)); done.
Qed.

Lemma commit_keeps fs cf buf f v :
  dict_get fs f = Some v -> cf <> Some f -> dict_get (commit fs cf buf) f = Some v.
Proof.
  intros Hv Hcf. unfold commit.
  destruct cf as [[|x g]|]; [done| |done]. destruct buf; [done|].
  rewrite dict_get_set. case_bool_decide; [congruence|done].
Qed.

Lemma commit_cases fs cf buf k v :
  dict_get (commit fs cf buf) k = Some v ->
  dict_get fs k = Some v \/ (cf = Some k /\ k <> [] /\ buf <> [] /\ v = join_nl buf).
Proof.
  unfold commit. destruct cf as [[|x g]|]; auto. destruct buf as [|b buf]; auto.
  rewrite dict_get_set. case_bool_decide as E; [|auto].
  intros Hv. injection Hv as <-. subst. right. repeat split; congruence.
Qed.

Lemma parse_generated_content_lines s :
  parse_lines (split_nl s) <> [] -> parse_generated_content s = parse_lines (split_nl s).
Proof. unfold parse_generated_content. by destruct (parse_lines (split_nl s)). Qed.

Lemma block_in_snoc lines k v post l :
  block_in lines k v post -> block_in (lines ++ [l]) k v (post ++ [l]).
Proof.
  intros (pre & m & c & -> & H). exists pre, m, c. split; [|done].
  rewrite <- app_assoc. simpl. by rewrite <- app_assoc.
Qed.

(** The invariant of the scan: every stored entry comes from a finished
    non-empty block; an open file is the last marker line seen, and the
    buffer is the non-fence lines after it. *)
Lemma scan_invariant lines :
  (forall k v, dict_get (files (scan lines)) k = Some v ->
     exists m' p', block_in lines k v (m' :: p') /\ is_marker_line m' = true)
  /\ (forall f, current_file (scan lines) = Some f -> f <> [] ->
     exists pre m c, lines = pre ++ m :: c
       /\ is_marker_line m = true /\ extract_filename m = Some f
       /\ Forall (fun l => is_marker_line l = false) c
       /\ current_content (scan lines) = List.filter nonfence c).
Proof.
  induction lines as [|l lines IH] using rev_ind.
  - split; [done|]. by intros f Hf.
  - destruct IH as [I1 I2]. unfold scan in *. rewrite fold_left_app. simpl.
    set (st := fold_left step lines init) in *.
    unfold step. destruct (is_marker_line l) eqn:Hm.
    + destruct (extract_filename_some l Hm) as [g Hg]. rewrite Hg. simpl. split.
      * intros k v Hk. apply commit_cases in Hk as [Hk|(Hcf & Hk & Hb & ->)].
        -- destruct (I1 k v Hk) as (m' & p' & Hb' & Hm').
           exists m', (p' ++ [l]). split; [|done].
           by apply (block_in_snoc _ _ _ (m' :: p')).
        -- destruct (I2 k Hcf Hk) as (pre & m & c & Hl & Hmm & He & Hc & Hbuf).
           exists l, []. split; [|done].
           exists pre, m, c. rewrite Hl, <- app_assoc. rewrite <- Hbuf.
           repeat split; auto.
      * intros f Hf Hne. injection Hf as <-.
        exists lines, l, []. repeat split; auto.
    + destruct (is_fence l && truthy (current_file st)) eqn:Hfe;
        [|destruct (truthy (current_file st)) eqn:Ht]; simpl; split.
      * intros k v Hk. destruct (I1 k v Hk) as (m' & p' & Hb' & Hm').
        exists m', (p' ++ [l]). split; [|done].
        by apply (block_in_snoc _ _ _ (m' :: p')).
      * intros f Hf Hne. destruct (I2 f Hf Hne) as (pre & m & c & Hl & Hmm & He & Hc & Hbuf).
        exists pre, m, (c ++ [l]). rewrite Hl, <- app_assoc. repeat split; auto.
        -- apply Forall_app. auto.
        -- rewrite Hbuf, List.filter_app. apply andb_prop in Hfe as [Hfe _].
           cbn [List.filter].
           assert (E : nonfence l = false) by (unfold nonfence; by rewrite Hfe).
           rewrite E. by rewrite app_nil_r.
      * intros k v Hk. destruct (I1 k v Hk) as (m' & p' & Hb' & Hm').
        exists m', (p' ++ [l]). split; [|done].
        by apply (block_in_snoc _ _ _ (m' :: p')).
      * intros f Hf Hne. destruct (I2 f Hf Hne) as (pre & m & c & Hl & Hmm & He & Hc & Hbuf).
        exists pre, m, (c ++ [l]). rewrite Hl, <- app_assoc. repeat split; auto.
        -- apply Forall_app. auto.
        -- rewrite Hbuf, List.filter_app. cbn [List.filter].
           rewrite andb_true_r in Hfe.
           assert (E : nonfence l = true) by (unfold nonfence; by rewrite Hfe).
           by rewrite E.
      * intros k v Hk. destruct (I1 k v Hk) as (m' & p' & Hb' & Hm').
        exists m', (p' ++ [l]). split; [|done].
        by apply (block_in_snoc _ _ _ (m' :: p')).
      * intros f Hf Hne. exfalso. rewrite Hf in Ht. destruct f; simpl in Ht; congruence.
Qed.

(** ** C3 *)

(** C3: on an input none of whose lines contains a marker substring
    (case-insensitively), the parser returns exactly the default site: the
    three keys [index.html], [styles.css] and [script.js], and [index.html]
    embeds the first 1000 characters of the input between [<pre>] and
    [...</pre>]. The function is total: no error is possible. *)
Theorem parse_fallback_default (response : text) :
  Forall (fun l => is_marker_line l = false) (split_nl response) ->
  parse_generated_content response = create_default_website_structure response
  /\ map fst (parse_generated_content response) = [T "index.html"; T "styles.css"; T "script.js"]
  /\ dict_get (parse_generated_content response) (T "index.html")
     = Some (index_html_pre ++ firstn 1000 response ++ index_html_post)
  /\ (exists pre0, index_html_pre = pre0 ++ T "<pre>")
  /\ (exists post0, index_html_post = T "...</pre>" ++ post0).
Proof.
  intros H.
  assert (Hp : parse_generated_content response = create_default_website_structure response).
  { unfold parse_generated_content, parse_lines, scan. by rewrite fold_no_marker. }
  rewrite Hp. repeat split.
  - exists (take (length index_html_pre - 5) index_html_pre). vm_compute. reflexivity.
  - exists (drop 9 index_html_post). vm_compute. reflexivity.
Qed.

Lemma parse_fallback_default_witness :
  Forall (fun l => is_marker_line l = false) (split_nl (T "Hello, world"))
  /\ (parse_generated_content (T "Hello, world")
        = create_default_website_structure (T "Hello, world")
      /\ map fst (parse_generated_content (T "Hello, world"))
           = [T "index.html"; T "styles.css"; T "script.js"]
      /\ dict_get (parse_generated_content (T "Hello, world")) (T "index.html")
           = Some (index_html_pre ++ firstn 1000 (T "Hello, world") ++ index_html_post)
      /\ (exists pre0, index_html_pre = pre0 ++ T "<pre>")
      /\ (exists post0, index_html_post = T "...</pre>" ++ post0)).
Proof.
  assert (H : Forall (fun l => is_marker_line l = false) (split_nl (T "Hello, world"))).
  { vm_compute. repeat constructor. }
  split; [exact H|]. exact (parse_fallback_default (T "Hello, world") H).
Defined.

(** ** C10 *)

(** C10: every entry of the parser's output is either one of the default
    site's (when no block was stored at all) or the content of a block with
    at least one content line: a marker line naming a non-empty key,
    followed by non-marker lines at least one of which is not a fence,
    ended by the next marker line or by the end of the input. A block whose
    buffer is empty when it is closed is never stored. *)
Theorem parse_stores_only_nonempty_blocks (response k v : text) :
  dict_get (parse_generated_content response) k = Some v ->
  stored_block (split_nl response) k v
  \/ parse_generated_content response = create_default_website_structure response.
Proof.
  unfold parse_generated_content.
  destruct (parse_lines (split_nl response)) as [|e es] eqn:Hp; [by right|].
  intros Hk. left. rewrite <- Hp in Hk. unfold parse_lines in Hk.
  destruct (scan_invariant (split_nl response)) as [I1 I2].
  apply commit_cases in Hk as [Hk|(Hcf & Hk & Hb & ->)].
  - destruct (I1 k v Hk) as (m' & p' & Hb' & Hm').
    exists (m' :: p'). split; [done|]. right. eauto.
  - destruct (I2 k Hcf Hk) as (pre & m & c & Hl & Hmm & He & Hc & Hbuf).
    exists []. split; [|by left].
    exists pre, m, c. rewrite app_nil_r. rewrite Hbuf in Hb |- *.
    repeat split; auto.
Qed.

Lemma parse_stores_only_nonempty_blocks_witness :
  dict_get (parse_generated_content (T "File: a.html
File: b.css
p{}")) (T "b.css") = Some (T "p{}")
  /\ (stored_block (Py.split_nl (T "File: a.html
File: b.css
p{}")) (T "b.css") (T "p{}")
      \/ parse_generated_content (T "File: a.html
File: b.css
p{}") = create_default_website_structure (T "File: a.html
File: b.css
p{}")).
Proof.
  assert (H : dict_get (parse_generated_content (T "File: a.html
File: b.css
p{}")) (T "b.css") = Some (T "p{}")) by (vm_compute; reflexivity).
  split; [exact H|]. exact (parse_stores_only_nonempty_blocks _ _ _ H).
Defined.

(** ** C4 *)

(** C4, as the code has it: when a later marker block names the same
    non-empty file name as an earlier one (a marker with an empty name opens
    no file, as [current_file] is then falsy) and has at least one content
    line (a line that is neither a marker nor a fence), the result holds that later block's
    content for the file, provided the input has no further block for the
    same file. *)
Theorem last_write_wins (response : text) (pre c1 c2 post : list text) (m1 m2 f : text) :
  split_nl response = pre ++ m1 :: c1 ++ m2 :: c2 ++ post ->
  is_marker_line m1 = true -> extract_filename m1 = Some f ->
  is_marker_line m2 = true -> extract_filename m2 = Some f ->
  f <> [] ->
  Forall (fun l => is_marker_line l = false) c2 ->
  List.filter nonfence c2 <> [] ->
  (post = [] \/ exists m p', post = m :: p' /\ is_marker_line m = true) ->
  Forall (fun l => is_marker_line l = true -> extract_filename l <> Some f) post ->
  dict_get (parse_generated_content response) f = Some (join_nl (List.filter nonfence c2)).
Proof.
  intros Hs _ _ Hm2 He2 Hf Hc2 Hne Hpost Hpf.
  assert (Hl : dict_get (parse_lines (split_nl response)) f
               = Some (join_nl (List.filter nonfence c2))).
  { unfold parse_lines, scan. rewrite Hs.
    replace (pre ++ m1 :: c1 ++ m2 :: c2 ++ post)
      with ((pre ++ m1 :: c1) ++ m2 :: c2 ++ post)
      by (rewrite <- app_assoc; done).
    rewrite fold_left_app. simpl (fold_left step (m2 :: _) _).
    rewrite (step_marker _ _ f Hm2 He2), fold_left_app, fold_open_block by done.
    simpl (_ ++ _).
    set (fs1 := commit (files (fold_left step (pre ++ m1 :: c1) init)) _ _).
    assert (Hc : dict_get (commit fs1 (Some f) (List.filter nonfence c2)) f
                 = Some (join_nl (List.filter nonfence c2))).
    { unfold commit. destruct f as [|x f]; [congruence|].
      destruct (List.filter nonfence c2) eqn:E; [congruence|].
      rewrite dict_get_set. by rewrite bool_decide_true. }
    destruct Hpost as [->|(m & p' & -> & Hm)]; [exact Hc|].
    inversion Hpf as [|? ? Hm0 Hp']; subst.
    destruct (extract_filename_some m Hm) as [g Hg].
    simpl. rewrite (step_marker _ _ g Hm Hg). simpl.
    destruct (fold_keeps_entry p' (PState (commit fs1 (Some f) (List.filter nonfence c2)) (Some g) [])
                f _ Hc) as [H1 H2]; [simpl; specialize (Hm0 Hm); congruence|done|].
    by apply commit_keeps. }
  rewrite parse_generated_content_lines; [done|].
  by apply dict_get_nil_inv in Hl.
Qed.

Lemma last_write_wins_witness :
  Py.split_nl (T "File: a.txt
one
File: a.txt
two") = [] ++ T "File: a.txt" :: [T "one"] ++ T "File: a.txt" :: [T "two"] ++ []
  /\ is_marker_line (T "File: a.txt") = true
  /\ extract_filename (T "File: a.txt") = Some (T "a.txt")
  /\ T "a.txt" <> []
  /\ Forall (fun l => is_marker_line l = false) [T "two"]
  /\ List.filter nonfence [T "two"] <> []
  /\ dict_get (parse_generated_content (T "File: a.txt
one
File: a.txt
two")) (T "a.txt") = Some (join_nl (List.filter nonfence [T "two"])).
Proof.
  assert (Hs : Py.split_nl (T "File: a.txt
one
File: a.txt
two") = [] ++ T "File: a.txt" :: [T "one"] ++ T "File: a.txt" :: [T "two"] ++ [])
    by (vm_compute; reflexivity).
  assert (Hm : is_marker_line (T "File: a.txt") = true) by (vm_compute; reflexivity).
  assert (He : extract_filename (T "File: a.txt") = Some (T "a.txt")) by (vm_compute; reflexivity).
  assert (Hf : T "a.txt" <> []) by discriminate.
  assert (Hc : Forall (fun l => is_marker_line l = false) [T "two"]) by (vm_compute; repeat constructor).
  assert (Hn : List.filter nonfence [T "two"] <> []) by (vm_compute; discriminate).
  refine (conj Hs (conj Hm (conj He (conj Hf (conj Hc (conj Hn _)))))).
  exact (last_write_wins _ [] [T "one"] [T "two"] [] _ _ _ Hs Hm He Hm He Hf Hc Hn
           (or_introl eq_refl) (List.Forall_nil _)).
Defined.

(** The claim as stated fails when the later block is empty: the earlier
    content survives. *)
Lemma last_write_wins_fails_on_empty_block :
  dict_get (parse_generated_content (T "File: a.txt
one
File: a.txt")) (T "a.txt") = Some (T "one").
Proof. vm_compute. reflexivity. Qed.

End ParserFacts.

(** * The marker round trip *)

Module RoundTrip.
Import Py Parser ParserFacts Notions.

(** ** Text lemmas *)

Lemma is_prefix_space p a b :
  ~ In sp p -> is_prefix p (a ++ sp :: b) = is_prefix p a.
Proof.
  revert p. induction a as [|x a IH]; intros [|c p] Hp; simpl; try done.
  - rewrite bool_decide_false; [done|]. intros ->. apply Hp. by left.
  - rewrite IH; [done|]. intros H. apply Hp. by right.
Qed.

Lemma contains_space p a b :
  p <> [] -> ~ In sp p -> contains p (a ++ sp :: b) = contains p a || contains p b.
Proof.
  intros Hne Hp. induction a as [|x a IH].
  - destruct p as [|c p]; [done|]. simpl.
    rewrite bool_decide_false; [done|]. intros ->. apply Hp. by left.
  - change (contains p ((x :: a) ++ sp :: b))
      with (is_prefix p ((x :: a) ++ sp :: b) || contains p (a ++ sp :: b)).
    rewrite is_prefix_space by done. rewrite IH.
    change (contains p (x :: a)) with (is_prefix p (x :: a) || contains p a).
    by rewrite orb_assoc.
Qed.

Lemma split_first_none p s : contains p s = false -> split_first p s = None.
Proof.
  induction s as [|c s IH]; simpl.
  - intros H. rewrite orb_false_r in H. by rewrite H.
  - destruct (is_prefix p (c :: s)); [done|]. simpl. intros H. by rewrite IH.
Qed.

Lemma is_prefix_length p s : is_prefix p s = true -> length p <= length s.
Proof.
  revert s. induction p as [|c p IH]; intros [|x s]; simpl; try lia; try done.
  intros H. apply andb_prop in H as [_ H]. apply IH in H. lia.
Qed.

Lemma split_first_space p a b :
  p <> [] -> ~ In sp p ->
  split_first p (a ++ sp :: b) =
    match split_first p a with
    | Some (x, y) => Some (x, y ++ sp :: b)
    | None =>
        match split_first p b with
        | Some (x, y) => Some (a ++ sp :: x, y)
        | None => None
        end
    end.
Proof.
  intros Hne Hp. induction a as [|c a IH].
  - destruct p as [|c p]; [done|]. simpl.
    rewrite bool_decide_false; [done|]. intros ->. apply Hp. by left.
  - change (split_first p ((c :: a) ++ sp :: b)) with
      (if is_prefix p ((c :: a) ++ sp :: b)
       then Some ([], drop (length p) ((c :: a) ++ sp :: b))
       else match split_first p (a ++ sp :: b) with
            | Some (x, y) => Some (c :: x, y)
            | None => None
            end).
    rewrite is_prefix_space by done.
    change (split_first p (c :: a)) with
      (if is_prefix p (c :: a) then Some ([], drop (length p) (c :: a))
       else match split_first p a with
            | Some (x, y) => Some (c :: x, y)
            | None => None
            end).
    destruct (is_prefix p (c :: a)) eqn:Hpre.
    + apply is_prefix_length in Hpre. by rewrite drop_app_le.
    + rewrite IH. destruct (split_first p a) as [[x y]|]; [done|].
      by destruct (split_first p b) as [[x y]|].
Qed.

Lemma lstrip_length s : length (lstrip s) <= length s.
Proof. induction s as [|c s IH]; simpl; [lia|]. destruct (is_space c); simpl; lia. Qed.

Lemma lstrip_cases s : lstrip s = s \/ length (lstrip s) < length s.
Proof.
  destruct s as [|c s]; simpl; [by left|].
  destruct (is_space c); [|by left]. right. pose proof (lstrip_length s). lia.
Qed.

Lemma strip_fixed k : strip k = k -> lstrip k = k /\ rstrip k = k.
Proof.
  unfold strip, rstrip. intros H.
  assert (Hl : lstrip k = k).
  { destruct (lstrip_cases k) as [E|E]; [done|].
    assert (length (rev (lstrip (rev (lstrip k)))) <= length (lstrip k)).
    { rewrite length_rev. etransitivity; [apply lstrip_length|]. by rewrite length_rev. }
    rewrite H in *. lia. }
  rewrite Hl in H. by split.
Qed.

Lemma lstrip_app k s : lstrip k = k -> k <> [] -> lstrip (k ++ s) = k ++ s.
Proof.
  destruct k as [|c k]; [done|]. simpl. intros H _.
  destruct (is_space c) eqn:Hc; [|done].
  exfalso. pose proof (lstrip_length k). rewrite H in *. simpl in *. lia.
Qed.

Lemma rstrip_app s k : rstrip k = k -> k <> [] -> rstrip (s ++ k) = s ++ k.
Proof.
  unfold rstrip. intros H Hne.
  assert (Hr : lstrip (rev k) = rev k).
  { apply (f_equal (@rev _)) in H. by rewrite rev_involutive in H. }
  rewrite rev_app_distr, lstrip_app; [|done|].
  - by rewrite rev_app_distr, !rev_involutive.
  - intros E. apply Hne. apply (f_equal (@rev _)) in E.
    rewrite rev_involutive in E. exact E.
Qed.

Lemma rstrip_space_end s : rstrip (s ++ [sp]) = rstrip s.
Proof. unfold rstrip. by rewrite rev_app_distr. Qed.

Lemma replace_arrow_cons3 c1 c2 c3 r :
  replace_arrow (c1 :: c2 :: c3 :: r)
  = if bool_decide ([c1; c2; c3] = T "-->") then replace_arrow r
    else c1 :: replace_arrow (c2 :: c3 :: r).
Proof. reflexivity. Qed.

Ltac not_arrow := let E := fresh in intros E; unfold sp, T in *; simpl in *; congruence.

Lemma replace_arrow_space a b :
  replace_arrow (a ++ sp :: b) = replace_arrow a ++ sp :: replace_arrow b.
Proof.
  induction a as [a IH] using (induction_ltof1 _ (@length ascii)). unfold ltof in IH.
  destruct a as [|x [|y [|z a]]].
  - destruct b as [|c2 [|c3 r]]; try done.
  - destruct b as [|c3 r]; [done|]. simpl app.
    rewrite replace_arrow_cons3, bool_decide_false by not_arrow.
    pose proof (IH [] ltac:(simpl; lia)) as H0. cbn [app] in H0. rewrite H0. done.
  - simpl app. rewrite replace_arrow_cons3, bool_decide_false by not_arrow.
    pose proof (IH [y] ltac:(simpl; lia)) as H0. cbn [app] in H0. rewrite H0. done.
  - change ((x :: y :: z :: a) ++ sp :: b) with (x :: y :: z :: (a ++ sp :: b)).
    rewrite (replace_arrow_cons3 x y z (a ++ sp :: b)), (replace_arrow_cons3 x y z a).
    destruct (bool_decide ([x; y; z] = T "-->")).
    + apply IH. simpl. lia.
    + change (y :: z :: a ++ sp :: b) with ((y :: z :: a) ++ sp :: b).
      rewrite IH by (simpl; lia). done.
Qed.

Lemma split_on_app_sep sep l r :
  ~ In sep l -> split_on sep (l ++ sep :: r) = l :: split_on sep r.
Proof.
  induction l as [|c l IH]; intros Hl; simpl.
  - by rewrite bool_decide_true.
  - rewrite bool_decide_false by (intros ->; apply Hl; by left).
    rewrite IH; [done|]. intros H. apply Hl. by right.
Qed.

Lemma split_on_no_sep sep l : ~ In sep l -> split_on sep l = [l].
Proof.
  induction l as [|c l IH]; intros Hl; simpl; [done|].
  rewrite bool_decide_false by (intros ->; apply Hl; by left).
  rewrite IH; [done|]. intros H. apply Hl. by right.
Qed.

Lemma split_on_nonempty sep s : split_on sep s <> [].
Proof.
  destruct s as [|c s]; simpl; [done|].
  case_bool_decide; [done|]. by destruct (split_on sep s).
Qed.

Lemma split_on_lines sep s : Forall (fun l => ~ In sep l) (split_on sep s).
Proof.
  induction s as [|c s IH]; simpl.
  - repeat constructor. by intros [].
  - case_bool_decide as E.
    + constructor; [by intros []|done].
    + destruct (split_on sep s) as [|l ls] eqn:Hs; [by destruct (split_on_nonempty sep s)|].
      inversion IH as [|? ? Hl Hls]; subst.
      constructor; [|done]. intros [H|H]; [congruence|done].
Qed.

Lemma join_nl_cons_char x l ls : join_nl ((x :: l) :: ls) = x :: join_nl (l :: ls).
Proof. by destruct ls. Qed.

Lemma join_split c : join_nl (split_nl c) = c.
Proof.
  unfold split_nl. induction c as [|x c IH]; simpl; [done|].
  case_bool_decide as E.
  - subst x. destruct (split_on nl c) as [|l ls] eqn:Hs;
      [by destruct (split_on_nonempty nl c)|].
    change (join_nl ([] :: l :: ls)) with (nl :: join_nl (l :: ls)). by rewrite IH.
  - destruct (split_on nl c) as [|l ls] eqn:Hs; [by destruct (split_on_nonempty nl c)|].
    rewrite join_nl_cons_char. by rewrite IH.
Qed.

Lemma split_join (L : list text) :
  L <> [] -> Forall (fun l => ~ In nl l) L -> split_nl (join_nl L) = L.
Proof.
  unfold split_nl. induction L as [|l L IH]; intros Hne HL; [done|].
  inversion HL as [|? ? Hl HL']; subst.
  destruct L as [|l' L].
  - simpl. by apply split_on_no_sep.
  - change (join_nl (l :: l' :: L)) with (l ++ nl :: join_nl (l' :: L)).
    rewrite split_on_app_sep by done. by rewrite IH.
Qed.

Lemma lower_app a b : lower (a ++ b) = lower a ++ lower b.
Proof. apply map_app. Qed.

Lemma good_key_no_marker k m :
  good_key k -> m = T "filename:" \/ m = T "file:" -> contains m k = false.
Proof.
  intros (_ & Hl & _ & _ & _ & Hm) Hmm. unfold is_marker_line in Hm.
  rewrite Hl in Hm. unfold markers in Hm. simpl in Hm.
  apply orb_false_elim in Hm as [H1 Hm]. apply orb_false_elim in Hm as [H2 _].
  by destruct Hmm as [->| ->].
Qed.

Lemma extract_with_marker ms line f :
  extract_with ms line = Some f -> existsb (fun m => contains m (lower line)) ms = true.
Proof.
  induction ms as [|m ms IH]; simpl; [done|].
  destruct (contains m (lower line)); [done|]. apply IH.
Qed.

Lemma strip_space_key k : good_key k -> strip (sp :: k) = k.
Proof.
  intros (Hne & _ & Hs & _). apply strip_fixed in Hs as [Hl Hr].
  unfold strip. change (lstrip (sp :: k)) with (lstrip k). by rewrite Hl.
Qed.

Lemma split_first_nil m : m <> [] -> split_first m [] = None.
Proof. by destruct m. Qed.

Lemma split_index1_at0 m k :
  m <> [] -> ~ In sp m -> split_first m m = Some ([], []) -> contains m k = false ->
  split_index1 m (m ++ sp :: k) = Some (sp :: k).
Proof.
  intros Hp Hs Hmm Hk. unfold split_index1.
  rewrite (split_first_space _ m k Hp Hs), Hmm. cbv iota beta.
  rewrite (split_first_space _ [] k Hp Hs), (split_first_nil m Hp), (split_first_none _ k Hk).
  done.
Qed.

Lemma split_index1_at m a k :
  m <> [] -> ~ In sp m -> split_first m m = Some ([], []) ->
  contains m a = false -> contains m k = false ->
  split_index1 m (a ++ sp :: m ++ sp :: k) = Some (sp :: k).
Proof.
  intros Hp Hs Hmm Ha Hk. unfold split_index1.
  rewrite (split_first_space _ a (m ++ sp :: k) Hp Hs), (split_first_none _ a Ha).
  rewrite (split_first_space _ m k Hp Hs), Hmm. cbv iota beta.
  rewrite (split_first_space _ [] k Hp Hs), (split_first_nil m Hp), (split_first_none _ k Hk).
  done.
Qed.

Lemma marker_line_lower st k :
  lower k = k ->
  lower (marker_line st k) =
  match st with
  | StyleFile => T "file:" ++ sp :: k
  | StyleFilename => T "filename:" ++ sp :: k
  | StyleHash => T "#" ++ sp :: T "file:" ++ sp :: k
  | StyleSlashes => T "//" ++ sp :: T "file:" ++ sp :: k
  | StyleHtml => T "<!--" ++ sp :: T "file:" ++ sp :: (k ++ sp :: T "-->")
  end.
Proof. intros Hk. destruct st; unfold marker_line; rewrite ?lower_app, Hk; reflexivity. Qed.

Lemma strip_piece k : good_key k -> strip (replace_arrow (strip (sp :: k))) = k.
Proof.
  intros Hk. pose proof Hk as (_ & _ & Hs & _ & Hr & _).
  by rewrite strip_space_key, Hr, Hs.
Qed.

Lemma strip_piece_html k :
  good_key k -> strip (replace_arrow (strip (sp :: k ++ sp :: T "-->"))) = k.
Proof.
  intros Hk. pose proof Hk as (Hne & _ & Hs & _ & Hr & _).
  apply strip_fixed in Hs as [Hl Hrs].
  assert (E1 : strip (sp :: k ++ sp :: T "-->") = k ++ sp :: T "-->").
  { unfold strip. change (lstrip (sp :: k ++ sp :: T "-->")) with (lstrip (k ++ sp :: T "-->")).
    rewrite lstrip_app by done. apply rstrip_app; [reflexivity|discriminate]. }
  rewrite E1, replace_arrow_space, Hr. change (replace_arrow (T "-->")) with (@nil ascii).
  unfold strip. rewrite lstrip_app by done. by rewrite rstrip_space_end.
Qed.

Lemma extract_marker_line st k : good_key k -> extract_filename (marker_line st k) = Some k.
Proof.
  intros Hk. pose proof Hk as (Hne & Hl & _).
  assert (Kfn := good_key_no_marker k (T "filename:") Hk (or_introl eq_refl)).
  assert (Kf := good_key_no_marker k (T "file:") Hk (or_intror eq_refl)).
  assert (Pfn : T "filename:" <> []) by discriminate.
  assert (Pf : T "file:" <> []) by discriminate.
  assert (Sfn : ~ In sp (T "filename:")) by (vm_compute; intuition congruence).
  assert (Sf : ~ In sp (T "file:")) by (vm_compute; intuition congruence).
  unfold extract_filename, markers. cbn [extract_with]. rewrite (marker_line_lower st k Hl).
  destruct st.
  - rewrite (contains_space (T "filename:") (T "file:") k Pfn Sfn), Kfn.
    change (contains (T "filename:") (T "file:")) with false.
    rewrite (contains_space (T "file:") (T "file:") k Pf Sf).
    change (contains (T "file:") (T "file:")) with true. cbn [orb].
    rewrite (split_index1_at0 (T "file:") k Pf Sf ltac:(reflexivity) Kf).
    by rewrite strip_piece.
  - rewrite (contains_space (T "filename:") (T "filename:") k Pfn Sfn).
    change (contains (T "filename:") (T "filename:")) with true. cbn [orb].
    rewrite (split_index1_at0 (T "filename:") k Pfn Sfn ltac:(reflexivity) Kfn).
    by rewrite strip_piece.
  - rewrite (contains_space (T "filename:") (T "#") (T "file:" ++ sp :: k) Pfn Sfn),
      (contains_space (T "filename:") (T "file:") k Pfn Sfn), Kfn.
    change (contains (T "filename:") (T "#")) with false.
    change (contains (T "filename:") (T "file:")) with false.
    rewrite (contains_space (T "file:") (T "#") (T "file:" ++ sp :: k) Pf Sf),
      (contains_space (T "file:") (T "file:") k Pf Sf).
    change (contains (T "file:") (T "#")) with false.
    change (contains (T "file:") (T "file:")) with true. cbn [orb].
    rewrite (split_index1_at (T "file:") (T "#") k Pf Sf ltac:(reflexivity) ltac:(reflexivity) Kf).
    by rewrite strip_piece.
  - rewrite (contains_space (T "filename:") (T "//") (T "file:" ++ sp :: k) Pfn Sfn),
      (contains_space (T "filename:") (T "file:") k Pfn Sfn), Kfn.
    change (contains (T "filename:") (T "//")) with false.
    change (contains (T "filename:") (T "file:")) with false.
    rewrite (contains_space (T "file:") (T "//") (T "file:" ++ sp :: k) Pf Sf),
      (contains_space (T "file:") (T "file:") k Pf Sf).
    change (contains (T "file:") (T "//")) with false.
    change (contains (T "file:") (T "file:")) with true. cbn [orb].
    rewrite (split_index1_at (T "file:") (T "//") k Pf Sf ltac:(reflexivity) ltac:(reflexivity) Kf).
    by rewrite strip_piece.
  - assert (Kf' : contains (T "file:") (k ++ sp :: T "-->") = false).
    { rewrite (contains_space (T "file:") k (T "-->") Pf Sf), Kf. reflexivity. }
    rewrite (contains_space (T "filename:") (T "<!--") (T "file:" ++ sp :: (k ++ sp :: T "-->")) Pfn Sfn),
      (contains_space (T "filename:") (T "file:") (k ++ sp :: T "-->") Pfn Sfn),
      (contains_space (T "filename:") k (T "-->") Pfn Sfn), Kfn.
    change (contains (T "filename:") (T "<!--")) with false.
    change (contains (T "filename:") (T "file:")) with false.
    change (contains (T "filename:") (T "-->")) with false.
    rewrite (contains_space (T "file:") (T "<!--") (T "file:" ++ sp :: (k ++ sp :: T "-->")) Pf Sf),
      (contains_space (T "file:") (T "file:") (k ++ sp :: T "-->") Pf Sf).
    change (contains (T "file:") (T "<!--")) with false.
    change (contains (T "file:") (T "file:")) with true. cbn [orb].
    rewrite (split_index1_at (T "file:") (T "<!--") (k ++ sp :: T "-->") Pf Sf
      ltac:(reflexivity) ltac:(reflexivity) Kf').
    by rewrite strip_piece_html.
Qed.

Lemma marker_line_is_marker st k : good_key k -> is_marker_line (marker_line st k) = true.
Proof.
  intros Hk. apply (extract_with_marker markers _ k). apply extract_marker_line, Hk.
Qed.

Lemma marker_line_no_nl st k : ~ In nl k -> ~ In nl (marker_line st k).
Proof.
  intros Hk H. destruct st; unfold marker_line in H;
    repeat (apply in_app_iff in H as [H|H]); try (by apply Hk);
    unfold nl in H; simpl in H; intuition congruence.
Qed.

Lemma fence_no_nl : ~ In nl fence.
Proof. vm_compute. intuition congruence. Qed.

Lemma step_fence fs k buf : k <> [] -> step (PState fs (Some k) buf) fence = PState fs (Some k) buf.
Proof.
  intros Hk. unfold step. change (is_marker_line fence) with false.
  change (is_fence fence) with true. destruct k; [done|reflexivity].
Qed.

Lemma filter_nonfence_id (c : list text) :
  Forall (fun l => is_marker_line l = false /\ is_fence l = false) c ->
  List.filter nonfence c = c.
Proof.
  induction 1 as [|l c [_ Hf] _ IH]; simpl; [done|].
  assert (E : nonfence l = true) by (unfold nonfence; by rewrite Hf). by rewrite E, IH.
Qed.

(** One encoded entry commits what was open and leaves its own file open
    with its content lines. *)
Lemma scan_entry st k c fs cf buf :
  good_key k -> good_content c ->
  fold_left step (encode_entry st (k, c)) (PState fs cf buf)
  = PState (commit fs cf buf) (Some k) (split_nl c).
Proof.
  intros Hk Hc. pose proof Hk as (Hne & _).
  unfold encode_entry. cbn [fst snd]. rewrite !fold_left_app. cbn [fold_left].
  rewrite (step_marker _ _ k (marker_line_is_marker st k Hk) (extract_marker_line st k Hk)).
  cbn [files current_file current_content].
  rewrite step_fence by done.
  rewrite fold_open_block by (done || (eapply Forall_impl; [exact Hc|]; by intros l [? _])).
  rewrite filter_nonfence_id by done. by rewrite step_fence.
Qed.

Lemma scan_entries st es fs cf buf :
  Forall (fun e => good_key e.1 /\ good_content e.2) es ->
  finish (fold_left step (concat (map (encode_entry st) es)) (PState fs cf buf))
  = fold_left (fun a e => dict_set a e.1 e.2) es (commit fs cf buf).
Proof.
  revert fs cf buf. induction es as [|[k c] es IH]; intros fs cf buf Hes; [done|].
  inversion Hes as [|? ? [Hk Hc] Hes']; subst. cbn [map concat fold_left fst snd].
  rewrite fold_left_app, scan_entry by done. rewrite IH by done. f_equal.
  pose proof Hk as (Hne & _). destruct k as [|x k]; [done|].
  destruct (split_nl c) as [|l ls] eqn:Hs; [by destruct (split_on_nonempty nl c)|].
  cbn [commit]. by rewrite <- Hs, join_split.
Qed.

Lemma dict_set_fresh {V} (d : list (text * V)) k v :
  ~ In k (map fst d) -> dict_set d k v = d ++ [(k, v)].
Proof.
  induction d as [|[k' v'] d IH]; simpl; [done|]. intros H.
  rewrite bool_decide_false by (intros ->; apply H; by left).
  rewrite IH; [done|]. intros ?; apply H; by right.
Qed.

Lemma fold_dict_set_fresh (es acc : list (text * text)) :
  NoDup (map fst (acc ++ es)) ->
  fold_left (fun a e => dict_set a e.1 e.2) es acc = acc ++ es.
Proof.
  revert acc. induction es as [|[k c] es IH]; intros acc H; simpl; [by rewrite app_nil_r|].
  rewrite dict_set_fresh.
  - rewrite IH; [by rewrite <- app_assoc|]. by rewrite <- app_assoc.
  - rewrite map_app in H. simpl in H. apply NoDup_app in H as (_ & Hd & _).
    intros Hin. apply (Hd k); [by apply list_elem_of_In|]. by left.
Qed.

Lemma encode_lines st fs :
  fs <> [] -> Forall (fun e => good_key e.1 /\ good_content e.2) fs ->
  split_nl (encode st fs) = concat (map (encode_entry st) fs).
Proof.
  intros Hne Hg. unfold encode. apply split_join.
  - by destruct fs.
  - apply List.Forall_forall. intros l Hl.
    apply List.in_concat in Hl as (L & HL & Hl).
    apply in_map_iff in HL as ([k c] & <- & He).
    rewrite List.Forall_forall in Hg. destruct (Hg _ He) as [Hk _].
    pose proof Hk as (_ & _ & _ & Hnl & _).
    unfold encode_entry in Hl. cbn [fst snd] in Hl.
    apply in_app_iff in Hl as [[<-|[<-|[]]]|Hl].
    + by apply marker_line_no_nl.
    + apply fence_no_nl.
    + apply in_app_iff in Hl as [Hl|[<-|[]]]; [|apply fence_no_nl].
      pose proof (split_on_lines nl c) as Hs. rewrite List.Forall_forall in Hs. by apply Hs.
Qed.

(** [C2] (amended) Encoding a non-empty list of distinct files, each line by
    a marker line of any supported style, an opening fence, the content
    lines and a closing fence, and parsing the text gives back exactly the
    same list (same keys, same contents, same order), provided each key is
    non-empty, already lower case, free of surrounding white space, of
    newlines, of [-->] and of marker substrings, and no content line is a
    marker line or a fence line. *)
Theorem marker_roundtrip (st : marker_style) (fs : list (text * text)) :
  fs <> [] -> NoDup (map fst fs) ->
  Forall (fun e => good_key e.1 /\ good_content e.2) fs ->
  parse_generated_content (encode st fs) = fs.
Proof.
  intros Hne Hnd Hg.
  unfold parse_generated_content. rewrite (encode_lines st fs Hne Hg).
  change (parse_lines (concat (map (encode_entry st) fs)))
    with (finish (fold_left step (concat (map (encode_entry st) fs)) (PState [] None []))).
  rewrite scan_entries by done.
  change (commit [] None []) with (@nil (text * text)).
  rewrite fold_dict_set_fresh by done. simpl. by destruct fs.
Qed.

(** [C2] The round trip on two files in the [Filename:] style, its
    conditions checked by evaluation. *)
Lemma marker_roundtrip_witness :
  ex_files <> [] /\ NoDup (map fst ex_files)
  /\ Forall (fun e => good_key e.1 /\ good_content e.2) ex_files
  /\ parse_generated_content (encode StyleFilename ex_files) = ex_files.
Proof.
  assert (H1 : ex_files <> []) by discriminate.
  assert (H2 : NoDup (map fst ex_files)).
  { constructor; [|apply NoDup_singleton].
    intros Hin. apply list_elem_of_singleton in Hin. vm_compute in Hin. discriminate. }
  assert (H3 : Forall (fun e => good_key e.1 /\ good_content e.2) ex_files).
  { unfold ex_files, good_key, good_content.
    repeat constructor; cbn [fst snd];
      try discriminate; try reflexivity; try (vm_compute; intuition congruence);
      vm_compute; repeat constructor. }
  refine (conj H1 (conj H2 (conj H3 _))).
  apply (marker_roundtrip StyleFilename ex_files H1 H2 H3).
Defined.

(** [C2] A key with an upper-case letter does not come back: the parser
    lower-cases the marker line, so [Index.html] is read back as
    [index.html]. *)
Lemma marker_roundtrip_fails_on_upper_case_key :
  parse_generated_content (encode StyleFile [(T "Index.html", T "<h1>Hi</h1>")])
    = [(T "index.html", T "<h1>Hi</h1>")]
  /\ parse_generated_content (encode StyleFile [(T "Index.html", T "<h1>Hi</h1>")])
    <> [(T "Index.html", T "<h1>Hi</h1>")].
Proof. split; vm_compute; [reflexivity|discriminate]. Qed.

End RoundTrip.


(** * Properties of the environment builder *)

Module EnvFacts.
Import Py Env Notions.

Lemma bind_ok {A B} (m : M A) (k : A -> M B) s s2 x :
  bind m k s = (s2, Ok x) -> exists s1 a, m s = (s1, Ok a) /\ k a s1 = (s2, Ok x).
Proof. unfold bind. destruct (m s) as [s1 [a|e]]; [eauto|discriminate]. Qed.

Section Facts.

Variable base_directory : path.
Variable port_in_use : Z -> bool.
Variable can_bind : Z -> bool.

Lemma server_start_ok srv s s' srv' p :
  server_start port_in_use can_bind srv s = (s', Ok (srv', p)) ->
  fs s' = fs s /\ active_servers s' = active_servers s /\ port srv' = p
  /\ is_running srv' = true.
Proof.
  unfold server_start. destruct (is_running srv) eqn:R.
  - intros [= <- <- <-]. auto.
  - cbv zeta. match goal with |- context [if can_bind ?q then _ else _] => destruct (can_bind q) end;
      [|discriminate].
    unfold bind, emit, ret. intros [= <- <- <-]. simpl. auto.
Qed.

(** A successful start leaves a registered server whose URL was returned. *)
Lemma start_local_server_ok env_name port_arg s s' u :
  start_local_server base_directory port_in_use can_bind env_name port_arg s = (s', Ok u) ->
  exists srv, active_servers s' !! env_name = Some srv /\ u = get_url srv
    /\ fs s' = fs s /\ exists_b (fs s) (join base_directory env_name) = true.
Proof.
  unfold start_local_server, bind, path_exists, get_servers. cbv zeta.
  destruct (exists_b (fs s) (join base_directory env_name)) eqn:E; simpl; [|discriminate].
  destruct (active_servers s !! env_name) as [srv|] eqn:R.
  - intros [= <- <-]. eauto.
  - match goal with |- context [server_start ?a ?b ?c s] =>
      destruct (server_start a b c s) as [s2 [[srv' p]|e]] eqn:S end; [|discriminate].
    apply server_start_ok in S as (Hfs & _ & Hp & Hrun).
    unfold set_servers, ret. intros [= <- <-]. exists srv'. simpl.
    rewrite lookup_insert_eq. unfold get_url. rewrite Hrun, Hp. auto.
Qed.

(** [C5] Once [start_local_server] has returned a URL for an environment
    name, a second call for the same name, with any port argument, returns
    the same URL and leaves the state unchanged: no new listener is bound
    (the event log is unchanged), and the registry holds exactly the one
    server registered for that name. *)
Theorem start_local_server_idempotent env_name port1 port2 s0 s1 u :
  start_local_server base_directory port_in_use can_bind env_name port1 s0 = (s1, Ok u) ->
  start_local_server base_directory port_in_use can_bind env_name port2 s1 = (s1, Ok u)
  /\ is_Some (active_servers s1 !! env_name).
Proof.
  intros H. destruct (start_local_server_ok _ _ _ _ _ H) as (srv & Hr & -> & Hfs & He).
  unfold start_local_server, bind, path_exists, get_servers. cbv zeta.
  rewrite Hfs, He. simpl. rewrite Hr. split; [done|eauto].
Qed.

Lemma node_at_sub m m' p v : sub m m' -> node_at m p = Some v -> node_at m' p = Some v.
Proof. destruct p; simpl; auto. Qed.

Lemma walk_sub m m' cur segs r : sub m m' -> walk m cur segs = Ok r -> walk m' cur segs = Ok r.
Proof.
  intros Hs. revert cur. induction segs as [|x segs IH]; intros cur; simpl; [done|].
  destruct (node_at m cur) as [[|c]|] eqn:N; try discriminate.
  rewrite (node_at_sub _ _ _ _ Hs N). apply IH.
Qed.

Lemma is_dir_sub m m' raw : sub m m' -> is_dir_b m raw = true -> is_dir_b m' raw = true.
Proof.
  unfold is_dir_b, os_resolve. intros Hs.
  destruct (walk m [] raw) as [r|e] eqn:W; [|discriminate].
  rewrite (walk_sub _ _ _ _ _ Hs W). rewrite !bool_decide_eq_true. by apply node_at_sub.
Qed.

(** The path the kernel reaches only depends on the segments. *)
Lemma walk_result m cur segs r : walk m cur segs = Ok r -> r = fold_left step_seg segs cur.
Proof.
  revert cur. induction segs as [|x segs IH]; intros cur; simpl; [congruence|].
  destruct (node_at m cur) as [[|c]|]; try discriminate. apply IH.
Qed.

Lemma resolve_lex m raw r : os_resolve m raw = Ok r -> r = lex raw.
Proof. apply walk_result. Qed.

Lemma lex_subdir raw d : In d subdirs -> lex (raw ++ [d]) = lex raw ++ [d].
Proof.
  unfold lex. rewrite fold_left_app. simpl. generalize (fold_left step_seg raw []) as c.
  intros c Hd. repeat destruct Hd as [<-|Hd]; try done; reflexivity.
Qed.

Lemma mkdir_exist_ok_fs_ok m raw m' :
  mkdir_exist_ok_fs m raw = Ok m' ->
  exists r, os_resolve m raw = Ok r /\ node_at m' r = Some Dir
    /\ (m' = m \/ (m !! r = None /\ m' = <[r := Dir]> m)).
Proof.
  unfold mkdir_exist_ok_fs, os_mkdir, is_dir_b.
  destruct (os_resolve m raw) as [r|e] eqn:R.
  - destruct (node_at m r) as [n|] eqn:N; cbv beta iota.
    + case_bool_decide as D; [|discriminate]. intros [= <-]. exists r. rewrite N, D. auto.
    + intros [= <-]. exists r. destruct r as [|x r]; [discriminate|].
      simpl in N |- *. rewrite lookup_insert_eq. auto.
  - destruct e; discriminate.
Qed.

Lemma mkdir_exist_ok_fs_sub m raw m' : mkdir_exist_ok_fs m raw = Ok m' -> sub m m'.
Proof.
  intros H. apply mkdir_exist_ok_fs_ok in H as (r & _ & _ & [->|[N ->]]); intros q v Hq; [done|].
  rewrite lookup_insert_ne; [done|]. intros ->. congruence.
Qed.

Lemma mkdir_exist_ok_fs_dir m raw m' : mkdir_exist_ok_fs m raw = Ok m' -> is_dir_b m' raw = true.
Proof.
  intros H. pose proof (mkdir_exist_ok_fs_sub _ _ _ H) as Hs.
  apply mkdir_exist_ok_fs_ok in H as (r & R & D & _).
  unfold is_dir_b, os_resolve in *. rewrite (walk_sub _ _ _ _ _ Hs R).
  by apply bool_decide_eq_true.
Qed.

Lemma mkdir_exist_ok_fs_noop m raw : is_dir_b m raw = true -> mkdir_exist_ok_fs m raw = Ok m.
Proof.
  unfold mkdir_exist_ok_fs, os_mkdir. intros H. pose proof H as H'. unfold is_dir_b in H'.
  destruct (os_resolve m raw) as [r|e] eqn:R; [|discriminate].
  apply bool_decide_eq_true in H'. rewrite H'. cbv beta iota. by rewrite H.
Qed.

Lemma mkdirs_cons_ok m r rs m' : mkdir_exist_ok_fs m r = Ok m' -> mkdirs m (r :: rs) = mkdirs m' rs.
Proof. intros H. simpl. by rewrite H. Qed.

Lemma mkdirs_sub m rs m' : mkdirs m rs = Ok m' -> sub m m'.
Proof.
  revert m. induction rs as [|r rs IH]; intros m; simpl; [intros [= <-]; by intros ??|].
  destruct (mkdir_exist_ok_fs m r) as [m1|e] eqn:E; [|discriminate].
  intros H q v Hq. apply (IH m1 H). by apply (mkdir_exist_ok_fs_sub _ _ _ E).
Qed.

Lemma mkdirs_dirs m rs m' : mkdirs m rs = Ok m' -> Forall (fun r => is_dir_b m' r = true) rs.
Proof.
  revert m. induction rs as [|r rs IH]; intros m; simpl; [constructor|].
  destruct (mkdir_exist_ok_fs m r) as [m1|e] eqn:E; [|discriminate]. intros H.
  constructor; [|by apply (IH m1)].
  apply (is_dir_sub m1); [by apply (mkdirs_sub _ rs)|]. by apply (mkdir_exist_ok_fs_dir m).
Qed.

Lemma mkdirs_new m rs m' q v :
  mkdirs m rs = Ok m' -> m' !! q = Some v ->
  m !! q = Some v \/ exists raw, In raw rs /\ q = lex raw.
Proof.
  revert m. induction rs as [|r rs IH]; intros m; simpl; [intros [= <-]; auto|].
  destruct (mkdir_exist_ok_fs m r) as [m1|e] eqn:E; [|discriminate]. intros H Hq.
  destruct (IH m1 H Hq) as [H1|(raw & Hin & ->)]; [|eauto].
  apply mkdir_exist_ok_fs_ok in E as (r' & R & _ & [->|[N ->]]); [auto|].
  destruct (decide (r' = q)) as [<-|Hne].
  - right. exists r. split; [by left|]. by apply (resolve_lex m).
  - left. by rewrite lookup_insert_ne in H1.
Qed.

Lemma mkdirs_noop m rs : Forall (fun r => is_dir_b m r = true) rs -> mkdirs m rs = Ok m.
Proof.
  induction 1 as [|r rs Hr _ IH]; simpl; [done|]. by rewrite mkdir_exist_ok_fs_noop.
Qed.

Lemma mkdir_step raw {B} (k : unit -> M B) s s2 x :
  bind (mkdir_exist_ok raw) k s = (s2, Ok x) ->
  exists m', mkdir_exist_ok_fs (fs s) raw = Ok m'
    /\ k tt (State m' (active_servers s) (log s)) = (s2, Ok x).
Proof.
  unfold bind, mkdir_exist_ok, lift_fs.
  destruct (mkdir_exist_ok_fs (fs s) raw) eqn:E; [eauto|discriminate].
Qed.

Lemma skeleton_paths p : skeleton p = p :: map (fun d => p ++ [d]) subdirs.
Proof. done. Qed.

(** [create_test_environment] is: the optional [rmtree], then the seven
    [mkdir(exist_ok=True)] calls of [skeleton]. *)
Lemma create_test_environment_ok name clean s0 s1 p :
  create_test_environment base_directory name clean s0 = (s1, Ok p) ->
  p = join base_directory name /\
  exists sa,
    (if exists_b (fs s0) p && clean then rmtree p s0 = (sa, Ok tt) else sa = s0)
    /\ mkdirs (fs sa) (skeleton p) = Ok (fs s1)
    /\ active_servers s1 = active_servers sa /\ log s1 = log sa.
Proof.
  unfold create_test_environment. cbv zeta. intros H.
  apply bind_ok in H as (s0' & ex & Hex & H). unfold path_exists in Hex. injection Hex as <- <-.
  apply bind_ok in H as (sa & [] & Hpre & H).
  apply mkdir_step in H as (m1 & H1 & H); cbv beta in H.
  apply mkdir_step in H as (m2 & H2 & H); cbv beta in H.
  apply mkdir_step in H as (m3 & H3 & H); cbv beta in H.
  apply mkdir_step in H as (m4 & H4 & H); cbv beta in H.
  apply mkdir_step in H as (m5 & H5 & H); cbv beta in H.
  apply mkdir_step in H as (m6 & H6 & H); cbv beta in H.
  apply mkdir_step in H as (m7 & H7 & H); cbv beta in H.
  cbn [fs active_servers log] in *.
  unfold ret in H. injection H as <- <-. split; [done|]. exists sa. split.
  - destruct (exists_b _ _ && clean); [done|]. unfold ret in Hpre. congruence.
  - cbn [fs active_servers log]. split; [|done].
    unfold skeleton, subdirs. cbn [map].
    rewrite (mkdirs_cons_ok _ _ _ _ H1), (mkdirs_cons_ok _ _ _ _ H2), (mkdirs_cons_ok _ _ _ _ H3),
      (mkdirs_cons_ok _ _ _ _ H4), (mkdirs_cons_ok _ _ _ _ H5), (mkdirs_cons_ok _ _ _ _ H6),
      (mkdirs_cons_ok _ _ _ _ H7). done.
Qed.

Lemma bind_path_exists {B} raw (k : bool -> M B) s :
  bind (path_exists raw) k s = k (exists_b (fs s) raw) s.
Proof. reflexivity. Qed.

Lemma bind_ret {A B} (a : A) (k : A -> M B) s : bind (ret a) k s = k a s.
Proof. reflexivity. Qed.

Lemma bind_mkdir_noop {B} raw (k : unit -> M B) s :
  is_dir_b (fs s) raw = true -> bind (mkdir_exist_ok raw) k s = k tt s.
Proof.
  intros H. unfold bind, mkdir_exist_ok, lift_fs. rewrite mkdir_exist_ok_fs_noop by done.
  by destruct s.
Qed.

(** On a state where the skeleton already exists, a call with [clean=False]
    changes nothing. *)
Lemma create_test_environment_noop name s :
  Forall (fun r => is_dir_b (fs s) r = true) (skeleton (join base_directory name)) ->
  create_test_environment base_directory name false s = (s, Ok (join base_directory name)).
Proof.
  intros Hs. unfold skeleton, subdirs in Hs. cbn [map] in Hs.
  repeat match goal with H : Forall _ (_ :: _) |- _ => inversion_clear H end.
  unfold create_test_environment. cbv zeta.
  rewrite bind_path_exists, andb_false_r, bind_ret.
  do 7 (rewrite bind_mkdir_noop by done). reflexivity.
Qed.

(** [C8] When [create_test_environment(name, clean)] returns a path, that
    path is [base_directory / name], and it and its six subdirectories
    [static], [templates], [assets], [css], [js], [images] are directories.
    With [clean=True] and a pre-existing entry, the tree was removed first:
    the removal is the only effect logged, and below the environment root
    only the root and its six subdirectories remain. A second call with
    [clean=False] returns the same path and changes nothing. *)
Theorem create_test_environment_skeleton name clean s0 s1 p :
  create_test_environment base_directory name clean s0 = (s1, Ok p) ->
  p = join base_directory name
  /\ Forall (fun r => is_dir_b (fs s1) r = true) (skeleton p)
  /\ (clean = true -> exists_b (fs s0) p = true ->
        log s1 = log s0 ++ [EvRmtree (lex p)]
        /\ forall q v, fs s1 !! q = Some v -> lex p `prefix_of` q ->
             q = lex p \/ exists d, In d subdirs /\ q = lex p ++ [d])
  /\ create_test_environment base_directory name false s1 = (s1, Ok p).
Proof.
  intros H. destruct (create_test_environment_ok _ _ _ _ _ H) as (Hp & sa & Hpre & Hm & Ha & Hl).
  assert (Hd := mkdirs_dirs _ _ _ Hm).
  split; [done|]. split; [done|]. split.
  - intros -> Hex. rewrite Hex in Hpre. cbn [andb] in Hpre. unfold rmtree in Hpre.
    destruct (os_resolve (fs s0) p) as [r|e] eqn:R; [|discriminate].
    rewrite (resolve_lex _ _ _ R) in Hpre.
    destruct (node_at (fs s0) (lex p)) as [[|c]|]; try discriminate.
    injection Hpre as <-. cbn [log fs] in Hl, Hm. split; [done|].
    intros q v Hq Hpq. destruct (mkdirs_new _ _ _ _ _ Hm Hq) as [Hq'|(raw & Hin & ->)].
    + apply map_lookup_filter_Some in Hq' as [_ Hnp]. simpl in Hnp. contradiction.
    + rewrite skeleton_paths in Hin. destruct Hin as [<-|Hin]; [by left|].
      apply in_map_iff in Hin as (d & <- & Hd'). right. exists d. split; [done|].
      by apply lex_subdir.
  - subst p. by apply create_test_environment_noop.
Qed.

Lemma bind_get_servers {B} (k : gmap text server -> M B) s :
  bind get_servers k s = k (active_servers s) s.
Proof. reflexivity. Qed.

Lemma bind_step {A B} (m : M A) (k : A -> M B) s s1 a :
  m s = (s1, Ok a) -> bind m k s = k a s1.
Proof. intros H. unfold bind. by rewrite H. Qed.

Lemma stop_local_server_none name s :
  active_servers s !! name = None -> stop_local_server name s = (s, Ok tt).
Proof. intros H. unfold stop_local_server. by rewrite bind_get_servers, H. Qed.

Lemma stop_local_server_some name s srv :
  active_servers s !! name = Some srv -> has_server srv = true ->
  stop_local_server name s
  = (State (fs s) (delete name (active_servers s)) (log s ++ [EvShutdown (port srv)]), Ok tt).
Proof.
  intros H Hs. unfold stop_local_server. rewrite bind_get_servers, H.
  unfold server_stop. rewrite Hs. reflexivity.
Qed.

(** With nothing at [base_directory / name] and no server registered under
    [name], [cleanup_environment(name)] succeeds and changes nothing. *)
Lemma cleanup_environment_absent name s0 :
  exists_b (fs s0) (join base_directory name) = false ->
  active_servers s0 !! name = None ->
  cleanup_environment base_directory name s0 = (s0, Ok tt).
Proof.
  intros He Hr. unfold cleanup_environment.
  rewrite (bind_step _ _ _ _ _ (stop_local_server_none name s0 Hr)). cbv beta zeta.
  by rewrite bind_path_exists, He.
Qed.

(** With a registered server, [cleanup_environment] shuts it down and drops
    its registry entry, and only then removes the tree: the log gains the
    shutdown followed by the removal, and nothing is left below the
    environment root. *)
Lemma cleanup_environment_registered name s0 s1 srv :
  active_servers s0 !! name = Some srv -> has_server srv = true ->
  cleanup_environment base_directory name s0 = (s1, Ok tt) ->
  log s1 = log s0 ++ EvShutdown (port srv)
             :: (if exists_b (fs s0) (join base_directory name)
                 then [EvRmtree (lex (join base_directory name))] else [])
  /\ active_servers s1 !! name = None
  /\ (exists_b (fs s0) (join base_directory name) = true ->
      forall q, lex (join base_directory name) `prefix_of` q -> fs s1 !! q = None).
Proof.
  intros Hr Hs H. unfold cleanup_environment in H.
  rewrite (bind_step _ _ _ _ _ (stop_local_server_some name s0 srv Hr Hs)) in H.
  cbv beta zeta in H. rewrite bind_path_exists in H. cbn [fs] in H.
  destruct (exists_b (fs s0) (join base_directory name)) eqn:E.
  - unfold rmtree in H. cbn [fs active_servers log] in H.
    destruct (os_resolve (fs s0) (join base_directory name)) as [r|e] eqn:R; [|discriminate].
    rewrite (resolve_lex _ _ _ R) in H.
    destruct (node_at (fs s0) _) as [[|c]|]; try discriminate.
    injection H as <-. cbn [log active_servers fs]. split; [by rewrite <- app_assoc|].
    split; [apply lookup_delete_eq|]. intros _ q Hq.
    apply map_lookup_filter_None. right. intros x _. simpl. tauto.
  - unfold ret in H. injection H as <-. cbn [log active_servers]. split; [done|].
    split; [apply lookup_delete_eq|]. done.
Qed.

(** [C7] (amended) With nothing at [base_directory / name] (neither a file
    nor a directory) and no server registered under [name],
    [cleanup_environment(name)] succeeds and leaves file system, registry
    and event log as they were. With a server registered under [name], a
    successful cleanup shuts the server down and drops its registry entry
    before removing the tree: the log gains the shutdown, then the removal
    (when something was there), and nothing is left below the root. *)
Theorem cleanup_environment_spec name :
  (forall s0,
     exists_b (fs s0) (join base_directory name) = false ->
     active_servers s0 !! name = None ->
     cleanup_environment base_directory name s0 = (s0, Ok tt))
  /\ (forall s0 s1 srv,
     active_servers s0 !! name = Some srv -> has_server srv = true ->
     cleanup_environment base_directory name s0 = (s1, Ok tt) ->
     log s1 = log s0 ++ EvShutdown (port srv)
                :: (if exists_b (fs s0) (join base_directory name)
                    then [EvRmtree (lex (join base_directory name))] else [])
     /\ active_servers s1 !! name = None
     /\ (exists_b (fs s0) (join base_directory name) = true ->
         forall q, lex (join base_directory name) `prefix_of` q -> fs s1 !! q = None)).
Proof.
  split; intros *; [apply cleanup_environment_absent|apply cleanup_environment_registered].
Qed.

Lemma mkdir_parents_rev_unfold m rr :
  mkdir_parents_rev m rr =
  match os_mkdir m (rev rr) with
  | Ok m' => Ok m'
  | Err FileNotFoundError =>
      match rr with
      | [] => Err FileNotFoundError
      | _ :: rparent =>
          match mkdir_parents_rev m rparent with
          | Ok m1 => mkdir_exist_ok_fs m1 (rev rr)
          | Err e => Err e
          end
      end
  | Err e => if is_dir_b m (rev rr) then Ok m else Err e
  end.
Proof. by destruct rr. Qed.

Lemma mkdir_parents_noop m raw : is_dir_b m raw = true -> mkdir_parents_rev m (rev raw) = Ok m.
Proof.
  intros H. rewrite mkdir_parents_rev_unfold, rev_involutive.
  pose proof H as H'. unfold is_dir_b in H'. unfold os_mkdir.
  destruct (os_resolve m raw) as [r|e]; [|discriminate].
  apply bool_decide_eq_true in H'. rewrite H'. cbv beta iota. by rewrite H.
Qed.

(** [C1], corrected: [create_website_files] checks no key. For one entry
    [(key, content)], when the parent of [env_path / key] is a directory and
    the path the kernel resolves [env_path / key] to is not a directory, the
    call succeeds, writes [content] at that resolved path and changes nothing
    else, whether or not the path lies below [env_path]. *)
Theorem create_website_files_no_guard env_path key content s0 r :
  is_dir_b (fs s0) (parent (join env_path key)) = true ->
  os_resolve (fs s0) (join env_path key) = Ok r ->
  node_at (fs s0) r <> Some Dir ->
  create_website_files env_path [(key, content)] s0
  = (State (<[r := File content]> (fs s0)) (active_servers s0) (log s0), Ok tt).
Proof.
  intros Hp R Hd. cbn [create_website_files]. cbv zeta.
  unfold bind at 1, mkdir_parents, lift_fs. rewrite mkdir_parents_noop by done.
  destruct s0 as [m a l]. cbn [fs active_servers log] in *.
  unfold bind, open_write, lift_fs, open_write_fs. cbn [fs active_servers log]. rewrite R.
  destruct (node_at m r) as [[|c]|]; [done|reflexivity|reflexivity].
Qed.

Lemma probe_range in_use fuel p q :
  probe in_use fuel p = Some q -> (p <= q < p + Z.of_nat fuel)%Z.
Proof.
  revert p. induction fuel as [|f IH]; intros p; simpl; [discriminate|].
  destruct (negb (in_use p)); [intros [= <-]; lia|]. intros H. apply IH in H. lia.
Qed.

(** [C6] [find_free_port] never returns 65535: for any start port it
    returns a port in [[start_port, 65534]] or fails; started at 65535 it
    fails whatever the network, and with 65535 the only free port it fails
    from any start below. *)
Theorem find_free_port_never_65535 :
  (forall in_use start q, find_free_port in_use start = Some q -> (start <= q < 65535)%Z)
  /\ (forall in_use, find_free_port in_use 65535%Z = None)
  /\ find_free_port (fun p => (p <? 65535)%Z) 65000%Z = None.
Proof.
  split; [|split; [reflexivity|vm_compute; reflexivity]].
  intros in_use start q H. unfold find_free_port in H. apply probe_range in H. lia.
Qed.

End Facts.

(** [C5] Serving [shop] with port 8000 taken gives port 8001; asking again,
    with another port, gives the same URL and state. *)
Lemma start_local_server_idempotent_witness :
  start_local_server w_base w_in_use w_can_bind (T "shop") None w_state
    = (w_started, Ok (Some (T "http://localhost:8001")))
  /\ (start_local_server w_base w_in_use w_can_bind (T "shop") (Some 9000%Z) w_started
        = (w_started, Ok (Some (T "http://localhost:8001")))
      /\ is_Some (active_servers w_started !! T "shop")).
Proof.
  assert (H : start_local_server w_base w_in_use w_can_bind (T "shop") None w_state
              = (w_started, Ok (Some (T "http://localhost:8001")))) by (vm_compute; reflexivity).
  exact (conj H (start_local_server_idempotent w_base w_in_use w_can_bind (T "shop") None
                   (Some 9000%Z) w_state w_started _ H)).
Defined.

(** [C8] A clean re-creation of [shop], which held [old.html]. *)
Lemma create_test_environment_skeleton_witness :
  create_test_environment w_base (T "shop") true w_state_old = (w_created, Ok w_env)
  /\ (w_env = join w_base (T "shop")
      /\ Forall (fun r => is_dir_b (fs w_created) r = true) (skeleton w_env)
      /\ (true = true -> exists_b (fs w_state_old) w_env = true ->
            log w_created = log w_state_old ++ [EvRmtree (lex w_env)]
            /\ forall q v, fs w_created !! q = Some v -> lex w_env `prefix_of` q ->
                 q = lex w_env \/ exists d, In d subdirs /\ q = lex w_env ++ [d])
      /\ create_test_environment w_base (T "shop") false w_created = (w_created, Ok w_env)).
Proof.
  assert (H : create_test_environment w_base (T "shop") true w_state_old = (w_created, Ok w_env))
    by (vm_compute; reflexivity).
  exact (conj H (create_test_environment_skeleton w_base (T "shop") true w_state_old w_created
                   w_env H)).
Defined.

(** [C7] Cleaning up a name with nothing behind it, and cleaning up the
    served [shop]. *)
Lemma cleanup_environment_spec_witness :
  (exists_b (fs w_state) (join w_base (T "gone")) = false
   /\ active_servers w_state !! T "gone" = None
   /\ cleanup_environment w_base (T "gone") w_state = (w_state, Ok tt))
  /\ (active_servers w_started !! T "shop" = Some w_server
      /\ has_server w_server = true
      /\ cleanup_environment w_base (T "shop") w_started = (w_cleaned, Ok tt)
      /\ (log w_cleaned = log w_started ++ EvShutdown (port w_server)
                :: (if exists_b (fs w_started) (join w_base (T "shop"))
                    then [EvRmtree (lex (join w_base (T "shop")))] else [])
          /\ active_servers w_cleaned !! T "shop" = None
          /\ (exists_b (fs w_started) (join w_base (T "shop")) = true ->
              forall q, lex (join w_base (T "shop")) `prefix_of` q -> fs w_cleaned !! q = None))).
Proof.
  assert (H1 : exists_b (fs w_state) (join w_base (T "gone")) = false) by (vm_compute; reflexivity).
  assert (H2 : active_servers w_state !! T "gone" = None) by (vm_compute; reflexivity).
  assert (H3 : active_servers w_started !! T "shop" = Some w_server) by (vm_compute; reflexivity).
  assert (H4 : has_server w_server = true) by reflexivity.
  assert (H5 : cleanup_environment w_base (T "shop") w_started = (w_cleaned, Ok tt))
    by (vm_compute; reflexivity).
  exact (conj (conj H1 (conj H2 (proj1 (cleanup_environment_spec w_base (T "gone")) w_state H1 H2)))
              (conj H3 (conj H4 (conj H5
                 (proj2 (cleanup_environment_spec w_base (T "shop")) w_started w_cleaned w_server
                    H3 H4 H5))))).
Defined.

(** [C7] A regular file [notes] is no environment directory, yet cleaning
    it up fails: [exists()] holds and [shutil.rmtree] refuses a file. *)
Lemma cleanup_environment_fails_on_file :
  is_dir_b (fs w_state_file) (join w_base (T "notes")) = false
  /\ active_servers w_state_file !! T "notes" = None
  /\ snd (cleanup_environment w_base (T "notes") w_state_file) = Err NotADirectoryError.
Proof. split; [|split]; vm_compute; reflexivity. Qed.

(** With [/w/etc] present, the key [../../etc/passwd] of the environment
    [shop] is written to [/w/etc/passwd]. *)
Lemma create_website_files_no_guard_example :
  is_dir_b (fs w_state_etc) (parent (join w_env (T "../../etc/passwd"))) = true
  /\ os_resolve (fs w_state_etc) (join w_env (T "../../etc/passwd")) = Ok w_passwd
  /\ node_at (fs w_state_etc) w_passwd <> Some Dir
  /\ create_website_files w_env [(T "../../etc/passwd", T "root")] w_state_etc
     = (State (<[w_passwd := File (T "root")]> (fs w_state_etc)) (active_servers w_state_etc)
          (log w_state_etc), Ok tt).
Proof.
  assert (H1 : is_dir_b (fs w_state_etc) (parent (join w_env (T "../../etc/passwd"))) = true)
    by (vm_compute; reflexivity).
  assert (H2 : os_resolve (fs w_state_etc) (join w_env (T "../../etc/passwd")) = Ok w_passwd)
    by (vm_compute; reflexivity).
  assert (H3 : node_at (fs w_state_etc) w_passwd <> Some Dir) by (vm_compute; discriminate).
  exact (conj H1 (conj H2 (conj H3
    (create_website_files_no_guard w_env (T "../../etc/passwd") (T "root") w_state_etc w_passwd
       H1 H2 H3)))).
Defined.

(** [C1], counterexample: [create_website_files] does not reject the key [../../etc/passwd]
    of the environment [shop]: the call succeeds, creates the directory
    [/w/etc] and writes [/w/etc/passwd], outside the environment root and
    outside the base directory. *)
Lemma create_website_files_escapes_root :
  snd (create_website_files w_env [(T "../../etc/passwd", T "root")] w_state) = Ok tt
  /\ fs (fst (create_website_files w_env [(T "../../etc/passwd", T "root")] w_state)) !! w_passwd
     = Some (File (T "root"))
  /\ ~ w_env `prefix_of` w_passwd
  /\ ~ w_base `prefix_of` w_passwd.
Proof.
  split; [vm_compute; reflexivity|]. split; [vm_compute; reflexivity|].
  split; intros [l Hl]; vm_compute in Hl; discriminate.
Qed.

End EnvFacts.

(** * Properties of the generate-and-deploy pipeline *)

Module GeneratorFacts.
Import Py Env Generator Notions EnvFacts.

Section Facts.

Variable base_directory : path.
Variable port_in_use : Z -> bool.
Variable can_bind : Z -> bool.
Variable get_prompt : text -> option text.
Variable generate_text : text -> text -> option text.
Variable json_dump : list (text * jvalue) -> text.
Variable cwd : text.

Lemma generate_website_no_merchant_type up add s s' wd :
  generate_website_from_prompt get_prompt generate_text cwd up add s = (s', Ok wd) ->
  dict_get (wd_metadata wd) (T "merchant_type") = None.
Proof.
  unfold generate_website_from_prompt. cbv zeta.
  destruct (generate_text _ _); [|discriminate]. intros [= _ <-]. reflexivity.
Qed.

(** Without a name, [deploy_to_local_environment] serves the environment
    [merchant_test_<rnd>] when the metadata has no [merchant_type]. *)
Lemma deploy_registers_synthesized_name wd port_arg rnd s s' u :
  dict_get (wd_metadata wd) (T "merchant_type") = None ->
  deploy_to_local_environment base_directory port_in_use can_bind json_dump wd None port_arg rnd s
    = (s', Ok u) ->
  is_Some (active_servers s' !! (T "merchant_test_" ++ str_of_Z rnd)).
Proof.
  intros Hm H. unfold deploy_to_local_environment in H. rewrite Hm in H. cbv zeta iota in H.
  apply bind_ok in H as (s1 & env_path & _ & H).
  apply bind_ok in H as (s2 & [] & _ & H).
  apply bind_ok in H as (s3 & [] & _ & H).
  apply start_local_server_ok in H as (srv & Hr & _). by exists srv.
Qed.

(** [C9] The environment-name field does not name the served environment
    when none is given: [generate_and_deploy] with [env_name=None] reports
    ["generated_test"], while the environment created and served is
    [merchant_test_<rnd>]. *)
Theorem generate_and_deploy_reports_other_name up add port_arg rnd s0 s1 d :
  generate_and_deploy base_directory port_in_use can_bind get_prompt generate_text json_dump cwd
    up add None port_arg rnd s0 = (s1, Ok d) ->
  dep_environment_name d = T "generated_test"
  /\ is_Some (active_servers s1 !! (T "merchant_test_" ++ str_of_Z rnd))
  /\ dep_environment_name d <> T "merchant_test_" ++ str_of_Z rnd.
Proof.
  unfold generate_and_deploy. intros H.
  apply bind_ok in H as (sa & wd & Hg & H).
  apply bind_ok in H as (sb & url & Hd & H).
  unfold ret in H. injection H as <- <-. cbn [dep_environment_name truthy].
  split; [done|]. split; [|discriminate].
  eapply deploy_registers_synthesized_name; [|exact Hd].
  exact (generate_website_no_merchant_type _ _ _ _ _ Hg).
Qed.

End Facts.

(** [C9] Generating and deploying a shop without a name: the server runs
    for [merchant_test_1234], the result says [generated_test]. *)
Lemma generate_and_deploy_reports_other_name_witness :
  generate_and_deploy w_base w_free w_can_bind w_prompt w_generate w_dump w_cwd
    (T "a shoe shop") None None None 1234%Z w_state = (w_deployed, Ok w_deployment)
  /\ (dep_environment_name w_deployment = T "generated_test"
      /\ is_Some (active_servers w_deployed !! (T "merchant_test_" ++ str_of_Z 1234))
      /\ dep_environment_name w_deployment <> T "merchant_test_" ++ str_of_Z 1234).
Proof.
  assert (H : generate_and_deploy w_base w_free w_can_bind w_prompt w_generate w_dump w_cwd
                (T "a shoe shop") None None None 1234%Z w_state = (w_deployed, Ok w_deployment))
    by (vm_compute; reflexivity).
  exact (conj H (generate_and_deploy_reports_other_name w_base w_free w_can_bind w_prompt
                   w_generate w_dump w_cwd (T "a shoe shop") None None 1234%Z w_state w_deployed
                   w_deployment H)).
Defined.

End GeneratorFacts.

(** * Further properties of the builder, the generator and the command line *)

Module ExtraFacts.
Import Py Parser Env Generator App Notions EnvFacts.

(** ** The parser's file names *)

Lemma lower_char_idem c : lower_char (lower_char c) = lower_char c.
Proof. destruct c as [[][][][][][][][]]; reflexivity. Qed.


Lemma lower_fixed_lower s : lower_fixed (lower s).
Proof. unfold lower_fixed, lower. apply Forall_map, Forall_forall. intros c _. apply lower_char_idem. Qed.

Lemma lower_fixed_eq s : lower_fixed s -> lower s = s.
Proof. unfold lower_fixed, lower. induction 1; simpl; congruence. Qed.

Lemma lstrip_suffix s : exists w, s = w ++ lstrip s.
Proof.
  induction s as [|c s IH]; simpl; [by exists []|].
  destruct (is_space c); [destruct IH as [w Hw]; exists (c :: w); simpl; congruence|by exists []].
Qed.

Lemma Forall_lstrip {P : ascii -> Prop} s : Forall P s -> Forall P (lstrip s).
Proof. destruct (lstrip_suffix s) as [w Hw]. intros H. rewrite Hw in H. by apply Forall_app in H as [_ H]. Qed.

Lemma Forall_rstrip {P : ascii -> Prop} s : Forall P s -> Forall P (rstrip s).
Proof. intros H. unfold rstrip. apply Forall_rev, Forall_lstrip, Forall_rev, H. Qed.

Lemma Forall_strip {P : ascii -> Prop} s : Forall P s -> Forall P (strip s).
Proof. intros H. by apply Forall_rstrip, Forall_lstrip. Qed.

Lemma Forall_replace_arrow {P : ascii -> Prop} s : Forall P s -> Forall P (replace_arrow s).
Proof.
  induction s as [s IH] using (induction_ltof1 _ (@length ascii)). unfold ltof in IH.
  destruct s as [|c1 [|c2 [|c3 r]]]; intros H; try (simpl; exact H).
  rewrite RoundTrip.replace_arrow_cons3.
  inversion H as [|? ? H1 H2]; subst.
  case_bool_decide.
  - apply IH; [simpl; lia|]. by inversion_clear H2 as [|? ? _ H3]; inversion_clear H3.
  - constructor; [done|]. apply IH; [simpl; lia|done].
Qed.

Lemma Forall_split_first {P : ascii -> Prop} p s a b :
  Forall P s -> split_first p s = Some (a, b) -> Forall P a /\ Forall P b.
Proof.
  revert a b. induction s as [|c s IH]; intros a b Hs; simpl.
  - destruct (is_prefix p []); [intros [= <- <-]; split; [constructor|by rewrite drop_nil]|discriminate].
  - destruct (is_prefix p (c :: s)).
    + intros [= <- <-]. split; [constructor|]. by apply Forall_drop.
    + inversion_clear Hs as [|? ? Hc Hs'].
      destruct (split_first p s) as [[a' b']|] eqn:E; [|discriminate].
      intros [= <- <-]. destruct (IH a' b' Hs' eq_refl). split; [by constructor|done].
Qed.

Lemma Forall_split_index1 {P : ascii -> Prop} p s piece :
  Forall P s -> split_index1 p s = Some piece -> Forall P piece.
Proof.
  unfold split_index1. intros Hs.
  destruct (split_first p s) as [[a b]|] eqn:E; [|discriminate].
  destruct (Forall_split_first _ _ _ _ Hs E) as [_ Hb].
  destruct (split_first p b) as [[a' b']|] eqn:E'.
  - intros [= <-]. by destruct (Forall_split_first _ _ _ _ Hb E').
  - by intros [= <-].
Qed.

Lemma lstrip_idem s : lstrip (lstrip s) = lstrip s.
Proof. induction s as [|c s IH]; simpl; [done|]. destruct (is_space c) eqn:E; [done|]. simpl. by rewrite E. Qed.

Lemma lstrip_head s : lstrip s = [] \/ exists c r, lstrip s = c :: r /\ is_space c = false.
Proof.
  induction s as [|c s IH]; simpl; [by left|]. destruct (is_space c) eqn:E; [done|]. right. eauto.
Qed.

Lemma rstrip_prefix s : exists w, s = rstrip s ++ w.
Proof.
  unfold rstrip. destruct (lstrip_suffix (rev s)) as [w Hw]. exists (rev w).
  rewrite <- rev_app_distr, <- Hw. by rewrite rev_involutive.
Qed.

Lemma rstrip_idem s : rstrip (rstrip s) = rstrip s.
Proof. unfold rstrip. by rewrite rev_involutive, lstrip_idem. Qed.

Lemma strip_idem s : strip (strip s) = strip s.
Proof.
  unfold strip. set (y := lstrip s).
  assert (Hy : lstrip (rstrip y) = rstrip y).
  { destruct (rstrip_prefix y) as [w Hw].
    destruct (rstrip y) as [|c r] eqn:R; [done|].
    destruct (lstrip_head s) as [H|(c' & r' & H & Hc)]; fold y in H.
    - rewrite H in Hw. discriminate.
    - rewrite H in Hw. simpl in Hw. injection Hw as -> _. simpl. by rewrite Hc. }
  by rewrite Hy, rstrip_idem.
Qed.

Lemma extract_with_normalised ms line f :
  extract_with ms line = Some f -> lower f = f /\ strip f = f.
Proof.
  induction ms as [|m ms IH]; simpl; [discriminate|].
  destruct (contains m (lower line)); [|apply IH].
  destruct (split_index1 m (lower line)) as [piece|] eqn:E; [|discriminate].
  intros [= <-]. split; [|apply strip_idem].
  apply lower_fixed_eq. unfold lower_fixed.
  apply Forall_strip, Forall_replace_arrow, Forall_strip.
  exact (Forall_split_index1 _ _ _ (lower_fixed_lower line) E).
Qed.


Lemma dict_set_in {V} (d : list (text * V)) k v kv :
  In kv (dict_set d k v) -> kv = (k, v) \/ In kv d.
Proof.
  induction d as [|[k' v'] d IH]; simpl; [intuition|].
  case_bool_decide; simpl; [intuition|]. intros [<-|Hin]; [auto|]. destruct (IH Hin); auto.
Qed.

Lemma commit_names fs cf buf :
  Forall (fun kv => good_name kv.1) fs ->
  (forall f, cf = Some f -> lower f = f /\ strip f = f) ->
  Forall (fun kv => good_name kv.1) (commit fs cf buf).
Proof.
  intros Hfs Hcf. unfold commit.
  destruct cf as [[|c f]|]; try done. destruct buf as [|l buf]; [done|].
  apply List.Forall_forall. intros kv Hin. apply dict_set_in in Hin as [->|Hin].
  - destruct (Hcf (c :: f) eq_refl). split; [discriminate|done].
  - by apply (proj1 (List.Forall_forall _ _) Hfs).
Qed.

Lemma scan_names lines st :
  Forall (fun kv => good_name kv.1) (files st) ->
  (forall f, current_file st = Some f -> lower f = f /\ strip f = f) ->
  let st' := fold_left step lines st in
  Forall (fun kv => good_name kv.1) (files st')
  /\ (forall f, current_file st' = Some f -> lower f = f /\ strip f = f).
Proof.
  revert st. induction lines as [|l lines IH]; intros st Hf Hc; simpl; [done|].
  apply IH; unfold step.
  - destruct (is_marker_line l); simpl; [by apply commit_names|].
    destruct (is_fence l && truthy (current_file st)); [done|].
    by destruct (truthy (current_file st)).
  - destruct (is_marker_line l); simpl.
    + destruct (extract_filename l) as [f'|] eqn:E; [|done].
      intros f [= <-]. by apply (extract_with_normalised markers l).
    + destruct (is_fence l && truthy (current_file st)); [done|].
      by destruct (truthy (current_file st)).
Qed.

(** Every file name in the result of [_parse_generated_content] is
    non-empty, lower case and without surrounding white space. *)
Theorem parse_names_normalised (response : text) :
  Forall (fun kv => kv.1 <> [] /\ lower kv.1 = kv.1 /\ strip kv.1 = kv.1)
    (parse_generated_content response).
Proof.
  unfold parse_generated_content.
  destruct (parse_lines (split_nl response)) as [|kv fs] eqn:E.
  - repeat constructor; vm_compute; congruence.
  - rewrite <- E. unfold parse_lines.
    destruct (scan_names (split_nl response) init) as [Hf Hc]; [constructor|discriminate|].
    by apply commit_names.
Qed.

(** ** [find_free_port] *)

Lemma probe_least in_use fuel p q :
  probe in_use fuel p = Some q <->
  (p <= q < p + Z.of_nat fuel)%Z /\ in_use q = false
  /\ forall r, (p <= r < q)%Z -> in_use r = true.
Proof.
  revert p. induction fuel as [|f IH]; intros p; simpl.
  - split; [discriminate|lia].
  - destruct (in_use p) eqn:E; simpl.
    + rewrite IH. split.
      * intros (H1 & H2 & H3). split; [lia|]. split; [done|]. intros r Hr.
        destruct (decide (r = p)) as [->|]; [done|]. apply H3; lia.
      * intros (H1 & H2 & H3). assert (q <> p) by congruence. split; [lia|]. split; [done|].
        intros r Hr. apply H3. lia.
    + split.
      * intros [= <-]. split; [lia|]. split; [done|]. intros r Hr. lia.
      * intros (H1 & H2 & H3). destruct (decide (q = p)) as [->|]; [done|].
        assert (in_use p = true) by (apply H3; lia). congruence.
Qed.

Lemma probe_none in_use fuel p :
  probe in_use fuel p = None -> forall r, (p <= r < p + Z.of_nat fuel)%Z -> in_use r = true.
Proof.
  revert p. induction fuel as [|f IH]; intros p; simpl; [lia|].
  destruct (in_use p) eqn:E; simpl; [|discriminate].
  intros H r Hr. destruct (decide (r = p)) as [->|]; [done|]. apply (IH _ H). lia.
Qed.

Lemma find_free_port_some in_use start q :
  find_free_port in_use start = Some q <->
  (start <= q < 65535)%Z /\ in_use q = false
  /\ forall r, (start <= r < q)%Z -> in_use r = true.
Proof.
  unfold find_free_port. rewrite probe_least.
  destruct (Z_lt_le_dec start 65535).
  - rewrite Z2Nat.id by lia. replace (start + (65535 - start))%Z with 65535%Z by lia. done.
  - assert (Z.to_nat (65535 - start) = 0%nat) as -> by lia. simpl. split; intros (H & _); lia.
Qed.

(** [find_free_port(start_port)], for a start port that is a port
    ([0 <= start_port]), returns the least port in [[start_port, 65534]]
    that is not in use, and fails exactly when there is none. *)
Theorem find_free_port_least in_use start q :
  (0 <= start)%Z ->
  find_free_port in_use start = Some q <->
  (start <= q < 65535)%Z /\ in_use q = false
  /\ forall r, (start <= r < q)%Z -> in_use r = true.
Proof. intros _. apply find_free_port_some. Qed.

Lemma find_free_port_none in_use start :
  find_free_port in_use start = None -> forall r, (start <= r < 65535)%Z -> in_use r = true.
Proof.
  unfold find_free_port. intros H r Hr. apply (probe_none _ _ _ H). lia.
Qed.


(** ** Servers *)


Lemma stop_local_server_eff name s :
  stop_local_server name s
  = (State (fs s) (delete name (active_servers s)) (log s ++ shutdown_of (active_servers s) name), Ok tt).
Proof.
  unfold stop_local_server, shutdown_of. rewrite bind_get_servers.
  destruct (active_servers s !! name) as [srv|] eqn:R.
  - unfold server_stop. destruct (has_server srv); [reflexivity|].
    unfold bind, ret, get_servers, set_servers. simpl. by rewrite app_nil_r.
  - destruct s as [m a l]. simpl in *. rewrite delete_id by done. by rewrite app_nil_r.
Qed.

Lemma shutdowns_delete reg n ns :
  n ∉ ns -> flat_map (shutdown_of (delete n reg)) ns = flat_map (shutdown_of reg) ns.
Proof.
  induction ns as [|x ns IH]; intros Hn; simpl; [done|].
  rewrite IH by set_solver. unfold shutdown_of at 1. rewrite lookup_delete_ne by set_solver. done.
Qed.

Lemma stop_servers_eff names s :
  NoDup names ->
  exists reg', stop_servers names s
    = (State (fs s) reg' (log s ++ flat_map (shutdown_of (active_servers s)) names), Ok tt)
    /\ forall k, reg' !! k = if decide (k ∈ names) then None else active_servers s !! k.
Proof.
  revert s. induction names as [|n ns IH]; intros s Hnd.
  - exists (active_servers s). split; [destruct s; simpl; by rewrite app_nil_r|].
    intros k. rewrite decide_False; [done|set_solver].
  - cbn [stop_servers flat_map]. apply NoDup_cons in Hnd as [Hn Hnd].
    rewrite (bind_step _ _ _ _ _ (stop_local_server_eff n s)).
    destruct (IH (State (fs s) (delete n (active_servers s))
                    (log s ++ shutdown_of (active_servers s) n)) Hnd) as (reg' & -> & Hreg).
    cbn [fs log active_servers] in *.
    exists reg'. split.
    + rewrite shutdowns_delete by done. by rewrite <- app_assoc.
    + intros k. rewrite Hreg. destruct (decide (k = n)) as [->|Hk].
      * destruct (decide (n ∈ ns)) as [|_]; [contradiction|].
        destruct (decide (n ∈ n :: ns)) as [_|Hc]; [apply lookup_delete_eq|].
        exfalso. apply Hc, elem_of_cons. by left.
      * rewrite lookup_delete_ne by congruence.
        destruct (decide (k ∈ ns)) as [H1|H1], (decide (k ∈ n :: ns)) as [H2|H2]; try done.
        -- exfalso. apply H2, elem_of_cons. by right.
        -- exfalso. apply elem_of_cons in H2 as [?|?]; [congruence|done].
Qed.



Lemma stop_servers_all names s :
  NoDup names -> (forall k, k ∈ names <-> is_Some (active_servers s !! k)) ->
  stop_servers names s
  = (State (fs s) ∅ (log s ++ flat_map (shutdown_of (active_servers s)) names), Ok tt).
Proof.
  intros Hnd Hk. destruct (stop_servers_eff names s Hnd) as (reg' & -> & Hreg).
  do 3 f_equal. apply map_eq. intros k. rewrite Hreg, lookup_empty.
  destruct (decide (k ∈ names)) as [|Hn]; [done|].
  destruct (active_servers s !! k) eqn:E; [|done]. exfalso. apply Hn, Hk. by rewrite E.
Qed.

Lemma keys_of_registry (reg : gmap text server) k :
  k ∈ map fst (map_to_list reg) <-> is_Some (reg !! k).
Proof.
  rewrite list_elem_of_In, in_map_iff. split.
  - intros ([k' v] & <- & Hin). exists v. by apply elem_of_map_to_list, list_elem_of_In.
  - intros [v Hv]. exists (k, v). split; [done|]. by apply list_elem_of_In, elem_of_map_to_list.
Qed.

(** [stop_all_servers] stops every registered server, whatever order the
    keys are taken in: the registry ends empty, the files are untouched,
    and the log gains, in that order, one shutdown for each registered
    server that holds a listener. *)
Theorem stop_all_servers_stops_all names s :
  NoDup names -> (forall k, k ∈ names <-> is_Some (active_servers s !! k)) ->
  stop_servers names s
    = (State (fs s) ∅ (log s ++ flat_map (shutdown_of (active_servers s)) names), Ok tt)
  /\ exists s', stop_all_servers s = (s', Ok tt) /\ fs s' = fs s /\ active_servers s' = ∅.
Proof.
  intros Hnd Hk. split; [by apply stop_servers_all|].
  unfold stop_all_servers. rewrite bind_get_servers.
  rewrite stop_servers_all; [eexists; split; [reflexivity|done]| |apply keys_of_registry].
  exact (NoDup_fst_map_to_list (active_servers s)).
Qed.


Section Builder.

Variable base_directory : path.
Variable port_in_use : Z -> bool.
Variable can_bind : Z -> bool.

(** A new server is bound on the requested port (8000 when none or 0 is
    given) when that port is free, and otherwise on the least free port
    above it, below 65535, or on the requested port again when there is
    none: the URL returned names that port, the registry holds the running
    server, and exactly one listener is bound. *)
Theorem start_local_server_port name port_arg s0 s1 u :
  active_servers s0 !! name = None ->
  start_local_server base_directory port_in_use can_bind name port_arg s0 = (s1, Ok u) ->
  let p := match port_arg with
           | Some q => if Z.eqb q 0 then 8000%Z else q
           | None => 8000%Z
           end in
  exists q,
    u = Some (url_of_port q)
    /\ active_servers s1 = <[name := Server (join base_directory name) q true true]> (active_servers s0)
    /\ log s1 = log s0 ++ [EvServe q (join base_directory name)]
    /\ fs s1 = fs s0
    /\ ((q = p /\ port_in_use p = false)
        \/ (port_in_use p = true /\ (p < q < 65535)%Z /\ port_in_use q = false
            /\ forall r, (p < r < q)%Z -> port_in_use r = true)
        \/ (q = p /\ port_in_use p = true
            /\ forall r, (p < r < 65535)%Z -> port_in_use r = true)).
Proof.
  intros Hr H. unfold start_local_server in H. cbv zeta in *.
  rewrite bind_path_exists in H.
  destruct (exists_b (fs s0) (join base_directory name)); [|discriminate]. cbn [negb] in H.
  rewrite bind_get_servers, Hr in H.
  set (p := match port_arg with
            | Some q => if Z.eqb q 0 then 8000%Z else q
            | None => 8000%Z
            end) in *.
  unfold server_start in H. cbn [is_running port directory] in H.
  set (q := if port_in_use p
            then match find_free_port port_in_use (p + 1) with Some q => q | None => p end
            else p) in *.
  destruct (can_bind q); [|discriminate].
  unfold bind, emit, ret, get_servers, set_servers in H. simpl in H.
  injection H as <- <-. exists q. simpl. do 4 (split; [done|]).
  subst q. destruct (port_in_use p) eqn:E.
  - destruct (find_free_port port_in_use (p + 1)) as [q|] eqn:F.
    + apply find_free_port_some in F as (H1 & H2 & H3). right; left.
      split; [done|]. split; [lia|]. split; [done|]. intros r Hr'. apply H3. lia.
    + right; right. split; [done|]. split; [done|]. intros r Hr'.
      apply (find_free_port_none _ _ F). lia.
  - by left.
Qed.

(** [get_environment_info] reports the server of a running environment:
    once [start_local_server(name)] has returned a URL, the information says
    the server runs and gives that URL; once [stop_local_server(name)] has
    run, it says no server runs and gives no URL. *)
Theorem get_environment_info_server name port_arg s0 s1 u :
  start_local_server base_directory port_in_use can_bind name port_arg s0 = (s1, Ok u) ->
  (exists i, get_environment_info base_directory name s1 = (s1, Ok i)
     /\ info_server_running i = true /\ info_server_url i = u)
  /\ (exists i, get_environment_info base_directory name (stop_local_server name s1).1
                = ((stop_local_server name s1).1, Ok i)
     /\ info_server_running i = false /\ info_server_url i = None).
Proof.
  intros H. destruct (start_local_server_ok _ _ _ _ _ _ _ _ H) as (srv & Hr & -> & Hfs & He).
  rewrite stop_local_server_eff. cbn [fst].
  unfold get_environment_info. cbv zeta. rewrite !bind_path_exists. cbn [fs].
  rewrite Hfs, He. cbn [negb]. split.
  - eexists. split; [reflexivity|]. cbn. rewrite Hr. split; [|done].
    by apply bool_decide_eq_true.
  - eexists. split; [reflexivity|]. cbn [info_server_running info_server_url active_servers].
    rewrite lookup_delete_eq. split; [|done]. apply bool_decide_eq_false. intros [? ?]; discriminate.
Qed.

End Builder.


(** ** Paths and listings *)

Lemma walk_app m cur a b :
  walk m cur (a ++ b) = match walk m cur a with Ok c => walk m c b | Err e => Err e end.
Proof.
  revert cur. induction a as [|x a IH]; intros cur; simpl; [done|].
  destruct (node_at m cur) as [[|c]|]; auto.
Qed.

Lemma resolve_snoc m raw x r :
  os_resolve m (raw ++ [x]) = Ok r ->
  exists p, os_resolve m raw = Ok p /\ node_at m p = Some Dir /\ r = step_seg p x.
Proof.
  unfold os_resolve. rewrite walk_app. destruct (walk m [] raw) as [p|e]; [|discriminate].
  simpl. destruct (node_at m p) as [[|c]|] eqn:N; try discriminate. intros [= <-]. eauto.
Qed.

Lemma step_seg_plain p x : plain_seg x -> step_seg p x = p ++ [x].
Proof.
  intros (H1 & H2 & H3 & _). unfold step_seg.
  rewrite bool_decide_false by done. rewrite bool_decide_false by tauto. done.
Qed.

Lemma lex_plain raw x : plain_seg x -> lex (raw ++ [x]) = lex raw ++ [x].
Proof. intros Hx. unfold lex. rewrite fold_left_app. simpl. by apply step_seg_plain. Qed.

Lemma join_plain base x : plain_seg x -> join base x = base ++ [x].
Proof.
  intros Hx. pose proof Hx as (H1 & H2 & H3 & H4).
  assert (E : join base x = base ++ pure_segs (split_on "/" x)).
  { unfold join. destruct x as [|c r]; [done|].
    assert (Hc : c <> "/"%char) by (intros ->; apply H4; left; done).
    destruct c as [b1 b2 b3 b4 b5 b6 b7 b8].
    destruct b1, b2, b3, b4, b5, b6, b7, b8; try reflexivity. by exfalso. }
  rewrite E, RoundTrip.split_on_no_sep by done. unfold pure_segs.
  rewrite filter_cons_True by tauto. done.
Qed.

Lemma is_dir_exists m raw : is_dir_b m raw = true -> exists_b m raw = true.
Proof.
  unfold is_dir_b, exists_b. destruct (os_resolve m raw); [|done].
  rewrite !bool_decide_eq_true. intros ->. eauto.
Qed.

Lemma is_dir_resolve m raw :
  is_dir_b m raw = true -> os_resolve m raw = Ok (lex raw) /\ node_at m (lex raw) = Some Dir.
Proof.
  unfold is_dir_b. destruct (os_resolve m raw) as [r|] eqn:R; [|discriminate].
  rewrite (resolve_lex _ _ _ R) in *. rewrite bool_decide_eq_true. auto.
Qed.

Lemma listdir_spec m p x : x ∈ listdir m p <-> is_Some (m !! (p ++ [x])).
Proof.
  unfold listdir. rewrite list_elem_of_omap. split.
  - intros ([q v] & Hin & Hf). apply elem_of_map_to_list in Hin. simpl in Hf.
    destruct (rev q) as [|y r] eqn:Rq; [discriminate|].
    case_bool_decide as Hr; [|discriminate]. injection Hf as ->.
    assert (q = p ++ [x]) as <-; [|by exists v].
    rewrite <- (rev_involutive q), Rq. simpl. by rewrite Hr.
  - intros [v Hv]. exists (p ++ [x], v). split; [by apply elem_of_map_to_list|]. simpl.
    rewrite rev_app_distr. simpl. rewrite bool_decide_true by apply rev_involutive. done.
Qed.

Section Listing.

Variable base_directory : path.

Lemma list_environments_ok s s' xs :
  list_environments base_directory s = (s', Ok xs) ->
  s' = s /\ os_resolve (fs s) base_directory = Ok (lex base_directory)
  /\ node_at (fs s) (lex base_directory) = Some Dir
  /\ forall x, x ∈ xs <-> is_Some (fs s !! (lex base_directory ++ [x]))
                       /\ is_dir_b (fs s) (base_directory ++ [x]) = true.
Proof.
  unfold list_environments. destruct (os_resolve (fs s) base_directory) as [p|e] eqn:R; [|discriminate].
  rewrite (resolve_lex _ _ _ R) in *.
  destruct (node_at (fs s) (lex base_directory)) as [[|c]|] eqn:N; try discriminate.
  intros [= <- <-]. do 3 (split; [done|]). intros x.
  rewrite list_elem_of_In, filter_In, <- list_elem_of_In, listdir_spec. done.
Qed.

Lemma list_environments_dir s x :
  is_dir_b (fs s) (base_directory ++ [x]) = true -> plain_seg x ->
  exists xs, list_environments base_directory s = (s, Ok xs) /\ x ∈ xs.
Proof.
  intros Hd Hx. pose proof (is_dir_resolve _ _ Hd) as [R N].
  destruct (resolve_snoc _ _ _ _ R) as (p & Rb & Nb & E).
  rewrite (resolve_lex _ _ _ Rb) in Nb, E. rewrite lex_plain in E by done.
  unfold list_environments. rewrite Rb, (resolve_lex _ _ _ Rb), Nb.
  eexists. split; [reflexivity|].
  rewrite list_elem_of_In, filter_In, <- list_elem_of_In, listdir_spec. split; [|done].
  rewrite lex_plain in N by done. destruct (lex base_directory); simpl in N; eauto.
Qed.

End Listing.


Lemma plain_last q x : Forall plain_seg (q ++ [x]) -> plain_seg x.
Proof. rewrite Forall_app. intros [_ H]. by inversion H. Qed.

Lemma node_at_snoc m q x : node_at m (q ++ [x]) = m !! (q ++ [x]).
Proof. by destruct q. Qed.

Section Listing2.

Variable base_directory : path.

(** After [create_test_environment(name)] has returned, [list_environments()]
    succeeds and lists [name]. *)
Theorem list_environments_after_create name clean s0 s1 env :
  plain_seg name ->
  create_test_environment base_directory name clean s0 = (s1, Ok env) ->
  exists xs, list_environments base_directory s1 = (s1, Ok xs) /\ name ∈ xs.
Proof.
  intros Hn H. destruct (create_test_environment_ok _ _ _ _ _ _ H) as (-> & sa & _ & Hm & _).
  apply mkdirs_dirs in Hm. rewrite skeleton_paths in Hm. inversion Hm as [|? ? Hd _]; subst.
  rewrite join_plain in Hd by done. by apply list_environments_dir.
Qed.

Lemma cleanup_eff name s0 s1 :
  cleanup_environment base_directory name s0 = (s1, Ok tt) ->
  sub (fs s1) (fs s0)
  /\ (exists_b (fs s0) (join base_directory name) = true ->
      forall q, lex (join base_directory name) `prefix_of` q -> fs s1 !! q = None)
  /\ (exists_b (fs s0) (join base_directory name) = false -> fs s1 = fs s0).
Proof.
  intros H. unfold cleanup_environment in H.
  rewrite (bind_step _ _ _ _ _ (stop_local_server_eff name s0)) in H. cbv beta zeta in H.
  rewrite bind_path_exists in H. cbn [fs] in H.
  destruct (exists_b (fs s0) (join base_directory name)) eqn:E.
  - unfold rmtree in H. cbn [fs active_servers log] in H.
    destruct (os_resolve (fs s0) (join base_directory name)) as [r|e] eqn:R; [|discriminate].
    rewrite (resolve_lex _ _ _ R) in H.
    destruct (node_at (fs s0) _) as [[|c]|]; try discriminate.
    injection H as <-. cbn [fs]. split; [|split; [|discriminate]].
    + intros q v Hq. by apply map_lookup_filter_Some in Hq as [Hq _].
    + intros _ q Hq. apply map_lookup_filter_None. right. intros x _. simpl. tauto.
  - unfold ret in H. injection H as <-. cbn [fs]. split; [by intros ??|]. split; [discriminate|done].
Qed.

Lemma cleanup_not_dir name s0 s1 :
  plain_seg name ->
  cleanup_environment base_directory name s0 = (s1, Ok tt) ->
  is_dir_b (fs s1) (base_directory ++ [name]) = false.
Proof.
  intros Hn H. destruct (cleanup_eff _ _ _ H) as (_ & Hrm & Hsame).
  rewrite join_plain in Hrm, Hsame by done.
  destruct (is_dir_b (fs s1) (base_directory ++ [name])) eqn:D; [exfalso|done].
  destruct (exists_b (fs s0) (base_directory ++ [name])) eqn:E.
  - apply is_dir_resolve in D as [_ N]. rewrite lex_plain, node_at_snoc in N by done.
    rewrite (Hrm eq_refl (lex base_directory ++ [name])) in N; [discriminate|].
    rewrite lex_plain by done. done.
  - rewrite Hsame in D by done. apply is_dir_exists in D. congruence.
Qed.

(** After [cleanup_environment(name)] has returned, [list_environments()]
    does not list [name]. *)
Theorem list_environments_after_cleanup name s0 s1 s2 xs :
  plain_seg name ->
  cleanup_environment base_directory name s0 = (s1, Ok tt) ->
  list_environments base_directory s1 = (s2, Ok xs) ->
  name ∉ xs.
Proof.
  intros Hn H L Hin. apply list_environments_ok in L as (-> & _ & _ & Hx).
  apply Hx in Hin as [_ D]. rewrite (cleanup_not_dir _ _ _ Hn H) in D. discriminate.
Qed.

Lemma cleanup_all_removes envs s0 s1 :
  cleanup_all base_directory envs s0 = (s1, Ok tt) ->
  sub (fs s1) (fs s0)
  /\ forall y, y ∈ envs -> plain_seg y -> is_dir_b (fs s1) (base_directory ++ [y]) = false.
Proof.
  revert s0. induction envs as [|e envs IH]; intros s0 H; cbn [cleanup_all] in H.
  - unfold ret in H. injection H as <-. split; [by intros ??|]. intros y Hy. by apply not_elem_of_nil in Hy.
  - apply bind_ok in H as (sa & [] & Hc & H). destruct (IH _ H) as [Hs Hy].
    destruct (cleanup_eff _ _ _ Hc) as (Hsa & _ & _). split.
    + intros q v Hq. by apply Hsa, Hs.
    + intros y Hin Hp. apply elem_of_cons in Hin as [->|Hin]; [|by apply Hy].
      destruct (is_dir_b (fs s1) (base_directory ++ [e])) eqn:D; [|done].
      apply (is_dir_sub _ (fs sa)) in D; [|done].
      by rewrite (cleanup_not_dir _ _ _ Hp Hc) in D.
Qed.

(** On a file system whose names are plain segments, once
    [remove_all_environments] has run without error, [list_environments()]
    lists nothing. *)
Theorem remove_all_environments_empties s0 s1 s2 xs :
  plain_keys (fs s0) ->
  App.remove_all_environments base_directory s0 = (s1, Ok tt) ->
  list_environments base_directory s1 = (s2, Ok xs) ->
  xs = [].
Proof.
  intros Hk H L. unfold App.remove_all_environments in H.
  apply bind_ok in H as (sa & envs & Le & H).
  apply list_environments_ok in Le as (-> & _ & _ & He).
  destruct (cleanup_all_removes _ _ _ H) as [Hs Hgone].
  apply list_environments_ok in L as (-> & _ & _ & Hx).
  destruct xs as [|x xs]; [done|exfalso].
  assert (Hin : x ∈ x :: xs) by (apply elem_of_cons; by left).
  apply Hx in Hin as [[v Hv] D].
  pose proof (Hs _ _ Hv) as Hv0. apply Hk, plain_last in Hv0.
  assert (D0 : is_dir_b (fs s0) (base_directory ++ [x]) = true) by (apply (is_dir_sub (fs s1)); done).
  assert (Hxe : x ∈ envs) by (apply He; split; [by exists v; apply Hs|done]).
  by rewrite (Hgone x Hxe Hv0) in D.
Qed.

Lemma get_environment_info_ok name s :
  exists_b (fs s) (join base_directory name) = true ->
  exists i, get_environment_info base_directory name s = (s, Ok i)
    /\ info_name i = name /\ info_exists i = true
    /\ info_server_running i = bool_decide (is_Some (active_servers s !! name)).
Proof.
  intros E. unfold get_environment_info. cbv zeta. rewrite bind_path_exists, E. cbn [negb].
  eexists. split; [reflexivity|]. cbn [info_name info_exists info_server_running]. auto.
Qed.

Lemma describe_all_ok envs s :
  Forall (fun x => exists_b (fs s) (join base_directory x) = true) envs ->
  exists infos, describe_all base_directory envs s = (s, Ok infos)
    /\ Forall2 (fun x i => info_name i = x /\ info_exists i = true
                 /\ info_server_running i = bool_decide (is_Some (active_servers s !! x)))
               envs infos.
Proof.
  induction 1 as [|x envs Hx _ IH].
  - exists []. split; [done|constructor].
  - destruct IH as (infos & Hd & Hf). destruct (get_environment_info_ok _ _ Hx) as (i & Hi & Hprops).
    exists (i :: infos). cbn [describe_all]. rewrite (bind_step _ _ _ _ _ Hi).
    rewrite (bind_step _ _ _ _ _ Hd). split; [done|]. by constructor.
Qed.

(** On a file system whose names are plain segments, the [list] command
    never meets the [ValueError] of [get_environment_info]: every name
    [list_environments()] returns is described, as an existing environment,
    with its server status read from the registry. *)
Theorem list_command_describes_all s s' xs :
  plain_keys (fs s) ->
  list_environments base_directory s = (s', Ok xs) ->
  exists infos, App.list_command base_directory s = (s, Ok infos)
    /\ Forall2 (fun x i => info_name i = x /\ info_exists i = true
                 /\ info_server_running i = bool_decide (is_Some (active_servers s !! x)))
               xs infos.
Proof.
  intros Hk L. pose proof L as L'. apply list_environments_ok in L' as (-> & _ & _ & Hx).
  unfold App.list_command. rewrite (bind_step _ _ _ _ _ L). apply describe_all_ok.
  apply Forall_forall. intros x Hin. apply Hx in Hin as [[v Hv] D].
  apply Hk, plain_last in Hv. rewrite join_plain by done. by apply is_dir_exists.
Qed.

End Listing2.

Lemma os_mkdir_ok m raw m' :
  os_mkdir m raw = Ok m' -> exists r, r <> [] /\ m !! r = None /\ m' = <[r := Dir]> m.
Proof.
  unfold os_mkdir. destruct (os_resolve m raw) as [r|e]; [|discriminate].
  destruct (node_at m r) eqn:N; [discriminate|]. intros [= <-].
  destruct r as [|x r]; [discriminate|]. exists (x :: r). done.
Qed.

Lemma mkdir_parents_rev_sub m rr m' : mkdir_parents_rev m rr = Ok m' -> sub m m'.
Proof.
  revert m'. induction rr as [|x rr IH]; intros m'; rewrite mkdir_parents_rev_unfold;
    destruct (os_mkdir m _) as [m1|e] eqn:E.
  1,3: intros [= <-]; apply os_mkdir_ok in E as (r & _ & N & ->); intros q v Hq;
       rewrite lookup_insert_ne; [done|]; intros ->; congruence.
  all: destruct e; try (intros ?; discriminate).
  all: try (destruct (is_dir_b _ _); [intros [= <-]; by intros ??|intros ?; discriminate]).
  destruct (mkdir_parents_rev m rr) as [m1|e] eqn:P; [|intros ?; discriminate].
  intros H q v Hq. apply (mkdir_exist_ok_fs_sub _ _ _ H). by apply (IH m1).
Qed.

Lemma open_write_fs_ok m raw c m' :
  open_write_fs m raw c = Ok m' ->
  exists r, os_resolve m raw = Ok r /\ r <> [] /\ m !! r <> Some Dir /\ m' = <[r := File c]> m.
Proof.
  unfold open_write_fs. destruct (os_resolve m raw) as [r|e]; [|discriminate].
  destruct (node_at m r) as [[|c']|] eqn:N; try discriminate; intros [= <-];
    (destruct r as [|x r]; [discriminate|]); exists (x :: r); simpl in N; rewrite N; done.
Qed.

Lemma create_website_files_step env k c rest s0 s1 :
  create_website_files env ((k, c) :: rest) s0 = (s1, Ok tt) ->
  exists s2, create_website_files env rest s2 = (s1, Ok tt)
    /\ active_servers s2 = active_servers s0 /\ log s2 = log s0
    /\ fs s2 !! lex (join env k) = Some (File c)
    /\ (forall q v, q <> lex (join env k) -> fs s0 !! q = Some v -> fs s2 !! q = Some v)
    /\ (forall q, fs s0 !! q = Some Dir -> fs s2 !! q = Some Dir).
Proof.
  cbn [create_website_files]. cbv zeta. intros H.
  apply bind_ok in H as (sa & [] & Ha & H). apply bind_ok in H as (s2 & [] & Hb & H).
  unfold mkdir_parents, lift_fs in Ha.
  destruct (mkdir_parents_rev (fs s0) _) as [m1|e] eqn:P; [|discriminate].
  injection Ha as <-. apply mkdir_parents_rev_sub in P.
  unfold open_write, lift_fs in Hb. cbn [fs active_servers log] in Hb.
  destruct (open_write_fs m1 _ c) as [m2|e] eqn:W; [|discriminate]. injection Hb as <-.
  apply open_write_fs_ok in W as (r & R & _ & ND & ->). apply resolve_lex in R as ->.
  exists (State (<[lex (join env k) := File c]> m1) (active_servers s0) (log s0)).
  cbn [fs active_servers log]. split; [done|]. split; [done|]. split; [done|].
  split; [by rewrite lookup_insert_eq|]. split.
  - intros q v Hne Hq. rewrite lookup_insert_ne by congruence. by apply P.
  - intros q Hq. rewrite lookup_insert_ne; [by apply P|]. intros <-. apply ND. by apply P.
Qed.

Lemma create_website_files_frame env files s0 s1 :
  create_website_files env files s0 = (s1, Ok tt) ->
  active_servers s1 = active_servers s0 /\ log s1 = log s0
  /\ (forall q, fs s0 !! q = Some Dir -> fs s1 !! q = Some Dir)
  /\ (forall q v, fs s0 !! q = Some v ->
        Forall (fun e => lex (join env e.1) <> q) files -> fs s1 !! q = Some v).
Proof.
  revert s0. induction files as [|[k c] rest IH]; intros s0 H.
  - cbn [create_website_files] in H. unfold ret in H. injection H as <-. auto.
  - apply create_website_files_step in H as (s2 & H & Ha & Hl & _ & Hq & Hd).
    destruct (IH _ H) as (Ha' & Hl' & Hd' & Hq'). split; [congruence|]. split; [congruence|].
    split; [intros q Q; by apply Hd', Hd|].
    intros q v Q F. inversion F as [|? ? Hne F']; subst. apply Hq'; [|done]. by apply Hq.
Qed.

(** [create_website_files] leaves the server registry and the event log
    alone and never removes a directory; every file it was given is found
    at the path the kernel resolves [env_path / filename] to, holding its
    content, unless a later entry of the dictionary resolves to the same
    path; and every other node is left as it was. *)
Theorem create_website_files_writes env files s0 s1 :
  create_website_files env files s0 = (s1, Ok tt) ->
  active_servers s1 = active_servers s0 /\ log s1 = log s0
  /\ (forall q, fs s0 !! q = Some Dir -> fs s1 !! q = Some Dir)
  /\ (forall q v, fs s0 !! q = Some v ->
        Forall (fun e => lex (join env e.1) <> q) files -> fs s1 !! q = Some v)
  /\ (forall pre k c post, files = pre ++ (k, c) :: post ->
        Forall (fun e => lex (join env e.1) <> lex (join env k)) post ->
        fs s1 !! lex (join env k) = Some (File c)).
Proof.
  intros H. destruct (create_website_files_frame _ _ _ _ H) as (Ha & Hl & Hd & Hq).
  do 4 (split; [done|]). clear Ha Hl Hd Hq. revert s0 H.
  induction files as [|[k0 c0] rest IH]; intros s0 H pre k c post E F.
  - by destruct pre.
  - apply create_website_files_step in H as (s2 & H & _ & _ & Hw & _ & _).
    destruct pre as [|e pre]; simpl in E; injection E; intros; subst.
    + destruct (create_website_files_frame _ _ _ _ H) as (_ & _ & _ & Hq). by apply Hq.
    + by apply (IH s2 H pre k c post).
Qed.

Lemma create_website_files_files env files s0 s1 :
  create_website_files env files s0 = (s1, Ok tt) ->
  (forall q c, fs s0 !! q = Some (File c) -> exists c', fs s1 !! q = Some (File c'))
  /\ (forall k c, In (k, c) files -> exists c', fs s1 !! lex (join env k) = Some (File c')).
Proof.
  revert s0. induction files as [|[k c] rest IH]; intros s0 H.
  - cbn [create_website_files] in H. unfold ret in H. injection H as <-. split; [eauto|done].
  - apply create_website_files_step in H as (s2 & H & _ & _ & Hw & Hq & _).
    destruct (IH _ H) as [F G]. split.
    + intros q c0 Q. destruct (decide (q = lex (join env k))) as [->|Hne]; [by apply (F _ c)|].
      apply (F _ c0). by apply Hq.
    + intros k' c' [E|Hin]; [|by apply (G _ c')]. injection E as <- <-. by apply (F _ c).
Qed.

Lemma walk_dirs m m' cur segs r :
  (forall q, m !! q = Some Dir -> m' !! q = Some Dir) ->
  walk m cur segs = Ok r -> walk m' cur segs = Ok r.
Proof.
  intros Hd. revert cur. induction segs as [|x segs IH]; intros cur; simpl; [done|].
  destruct (node_at m cur) as [[|c]|] eqn:N; try discriminate.
  replace (node_at m' cur) with (Some Dir); [apply IH|].
  destruct cur; [done|]. symmetry. by apply Hd.
Qed.

Lemma is_dir_dirs m m' raw :
  (forall q, m !! q = Some Dir -> m' !! q = Some Dir) ->
  is_dir_b m raw = true -> is_dir_b m' raw = true.
Proof.
  intros Hd D. apply is_dir_resolve in D as [R N]. unfold is_dir_b, os_resolve in *.
  rewrite (walk_dirs _ _ _ _ _ Hd R). apply bool_decide_eq_true.
  destruct (lex raw); [done|]. by apply Hd.
Qed.

Lemma rglob_files_child m p k c :
  m !! (p ++ [k]) = Some (File c) -> In k (rglob_files m p).
Proof.
  intros Hk. apply list_elem_of_In, list_elem_of_omap. exists (p ++ [k], File c).
  split; [by apply elem_of_map_to_list|]. cbn [fst snd].
  rewrite bool_decide_true.
  - by rewrite drop_app_length.
  - split; [by exists [k]|]. rewrite length_app. cbn [length]. split; [lia|].
    replace (length p + 1 - S (length p)) with 0 by lia. constructor.
Qed.

Lemma plain_metadata : plain_seg (T "metadata.json").
Proof. repeat split; try discriminate. simpl. intuition discriminate. Qed.

Section Deploy.

Variable base_directory : path.

(** After [create_test_environment(name)] and [create_website_files] on the
    path it returned, [get_environment_info(name)] succeeds and its [files]
    list names every top-level file that was written. *)
Theorem get_environment_info_lists_files name clean files k c s0 s1 s2 env :
  plain_seg k -> In (k, c) files ->
  create_test_environment base_directory name clean s0 = (s1, Ok env) ->
  create_website_files env files s1 = (s2, Ok tt) ->
  exists i, get_environment_info base_directory name s2 = (s2, Ok i) /\ In k (info_files i).
Proof.
  intros Hk Hin Hc Hw. destruct (create_test_environment_ok _ _ _ _ _ _ Hc) as (-> & sa & _ & Hm & _).
  apply mkdirs_dirs in Hm. rewrite skeleton_paths in Hm. inversion Hm as [|? ? Hd _]; subst.
  destruct (create_website_files_frame _ _ _ _ Hw) as (_ & _ & Hdirs & _).
  destruct (create_website_files_files _ _ _ _ Hw) as [_ G].
  destruct (G _ _ Hin) as [c' Hf]. clear G Hm.
  apply (is_dir_dirs _ (fs s2)) in Hd; [|done].
  pose proof (is_dir_exists _ _ Hd) as E. apply is_dir_resolve in Hd as [R N].
  rewrite join_plain, lex_plain in Hf by done.
  unfold get_environment_info. cbv zeta. rewrite bind_path_exists, E. cbn [negb].
  eexists. split; [reflexivity|]. cbn [info_files]. rewrite R, bool_decide_true by done.
  by apply (rglob_files_child _ _ _ c').
Qed.

Variable port_in_use can_bind : Z -> bool.
Variable json_dump : list (text * jvalue) -> text.

(** [deploy_to_local_environment] leaves [metadata.json] in the environment
    directory holding the dumped metadata, and its result is the URL of the
    server registered under the environment's name. *)
Theorem deploy_writes_metadata wd env_name port_arg rnd s0 s1 u :
  deploy_to_local_environment base_directory port_in_use can_bind json_dump wd env_name port_arg rnd s0
    = (s1, Ok u) ->
  let n :=
    match env_name with
    | Some n => n
    | None =>
        let merchant_type :=
          match dict_get (wd_metadata wd) (T "merchant_type") with
          | Some v => jvalue_str v
          | None => T "merchant"
          end in
        merchant_type ++ T "_test_" ++ str_of_Z rnd
    end in
  fs s1 !! (lex (join base_directory n) ++ [T "metadata.json"])
    = Some (File (json_dump (wd_metadata wd)))
  /\ exists srv, active_servers s1 !! n = Some srv /\ u = get_url srv.
Proof.
  unfold deploy_to_local_environment. cbv zeta.
  generalize (match env_name with
    | Some n => n
    | None =>
        (match dict_get (wd_metadata wd) (T "merchant_type") with
          | Some v => jvalue_str v
          | None => T "merchant"
          end) ++ T "_test_" ++ str_of_Z rnd
    end). intros n H.
  apply bind_ok in H as (sa & env & Ha & H).
  apply bind_ok in H as (sb & [] & _ & H).
  apply bind_ok in H as (sc & [] & Hc & H).
  apply create_test_environment_ok in Ha as [-> _].
  apply start_local_server_ok in H as (srv & Hr & Hu & Hfs & _).
  split; [|eauto]. rewrite Hfs.
  unfold open_write, lift_fs in Hc.
  destruct (open_write_fs (fs sb) _ _) as [m|e] eqn:W; [|discriminate]. injection Hc as <-.
  apply open_write_fs_ok in W as (r & R & _ & _ & ->). apply resolve_lex in R as ->.
  rewrite lex_plain by apply plain_metadata. cbn [fs]. by rewrite lookup_insert_eq.
Qed.

End Deploy.

(** ** Witnesses on the scenarios *)

(** Equalities between closed terms, checked by the virtual machine. *)
Ltac vm_refl := match goal with |- @eq ?A ?a ?b => exact (@eq_refl A a <: @eq A a b) end.

Ltac plain_seg_tac := repeat split; try discriminate; simpl; intuition discriminate.

Lemma w_state2_plain : plain_keys (fs w_state2).
Proof.
  intros q v Hq. cbn [fs w_state2] in Hq. unfold w_fs, w_env, w_base in Hq. simpl app in Hq.
  repeat (apply lookup_insert_Some in Hq as [[<- _]|[_ Hq]];
          [repeat (apply List.Forall_cons; [plain_seg_tac|]); apply List.Forall_nil|]).
  by rewrite lookup_empty in Hq.
Qed.

Lemma w_two_registry (names : list text) :
  names = [T "shop"; T "cafe"] \/ names = [T "cafe"; T "shop"] ->
  forall k, k ∈ names <-> is_Some (active_servers w_two_started !! k).
Proof.
  intros Hn k.
  assert (E : active_servers w_two_started
              = <[T "cafe" := Server (join w_base (T "cafe")) 9000 true true]>
                  (<[T "shop" := Server (join w_base (T "shop")) 8001 true true]> ∅)) by vm_refl.
  assert (Hk : k ∈ names <-> k = T "shop" \/ k = T "cafe")
    by (destruct Hn as [->| ->]; rewrite !elem_of_cons, elem_of_nil; tauto).
  rewrite Hk, E. destruct (decide (k = T "cafe")) as [->|Hc].
  - rewrite lookup_insert_eq. split; [by eexists|by right].
  - rewrite lookup_insert_ne by congruence. destruct (decide (k = T "shop")) as [->|Hs].
    + rewrite lookup_insert_eq. split; [by eexists|by left].
    + rewrite lookup_insert_ne, lookup_empty by congruence.
      split; [tauto|intros [? ?]; discriminate].
Qed.

Lemma w_two_nodup (a b : text) : a <> b -> NoDup [a; b].
Proof.
  intros Hab. apply NoDup_cons. split; [|apply NoDup_singleton].
  rewrite list_elem_of_singleton. done.
Qed.

Lemma start_local_server_port_witness :
  active_servers w_state !! T "shop" = None
  /\ start_local_server w_base w_in_use w_can_bind (T "shop") None w_state
     = (w_started, Ok (Some (T "http://localhost:8001")))
  /\ exists q,
    Some (T "http://localhost:8001") = Some (url_of_port q)
    /\ active_servers w_started
       = <[T "shop" := Server (join w_base (T "shop")) q true true]> (active_servers w_state)
    /\ log w_started = log w_state ++ [EvServe q (join w_base (T "shop"))]
    /\ fs w_started = fs w_state
    /\ ((q = 8000%Z /\ w_in_use 8000%Z = false)
        \/ (w_in_use 8000%Z = true /\ (8000 < q < 65535)%Z /\ w_in_use q = false
            /\ forall r, (8000 < r < q)%Z -> w_in_use r = true)
        \/ (q = 8000%Z /\ w_in_use 8000%Z = true
            /\ forall r, (8000 < r < 65535)%Z -> w_in_use r = true)).
Proof.
  assert (H1 : active_servers w_state !! T "shop" = None) by vm_refl.
  assert (H2 : start_local_server w_base w_in_use w_can_bind (T "shop") None w_state
               = (w_started, Ok (Some (T "http://localhost:8001")))) by vm_refl.
  exact (conj H1 (conj H2 (start_local_server_port w_base w_in_use w_can_bind (T "shop") None
                             w_state w_started _ H1 H2))).
Defined.

Lemma stop_all_servers_stops_all_witness :
  (NoDup [T "shop"; T "cafe"]
   /\ (forall k, k ∈ [T "shop"; T "cafe"] <-> is_Some (active_servers w_two_started !! k))
   /\ (stop_servers [T "shop"; T "cafe"] w_two_started
       = (State (fs w_two_started) ∅
            (log w_two_started
             ++ flat_map (shutdown_of (active_servers w_two_started)) [T "shop"; T "cafe"]), Ok tt)
       /\ exists s', stop_all_servers w_two_started = (s', Ok tt) /\ fs s' = fs w_two_started
                     /\ active_servers s' = ∅))
  /\ (NoDup [T "cafe"; T "shop"]
   /\ (forall k, k ∈ [T "cafe"; T "shop"] <-> is_Some (active_servers w_two_started !! k))
   /\ (stop_servers [T "cafe"; T "shop"] w_two_started
       = (State (fs w_two_started) ∅
            (log w_two_started
             ++ flat_map (shutdown_of (active_servers w_two_started)) [T "cafe"; T "shop"]), Ok tt)
       /\ exists s', stop_all_servers w_two_started = (s', Ok tt) /\ fs s' = fs w_two_started
                     /\ active_servers s' = ∅)).
Proof.
  assert (N1 : NoDup [T "shop"; T "cafe"]) by (apply w_two_nodup; discriminate).
  assert (N2 : NoDup [T "cafe"; T "shop"]) by (apply w_two_nodup; discriminate).
  pose proof (w_two_registry [T "shop"; T "cafe"] (or_introl eq_refl)) as R1.
  pose proof (w_two_registry [T "cafe"; T "shop"] (or_intror eq_refl)) as R2.
  exact (conj (conj N1 (conj R1 (stop_all_servers_stops_all _ w_two_started N1 R1)))
              (conj N2 (conj R2 (stop_all_servers_stops_all _ w_two_started N2 R2)))).
Defined.

Lemma find_free_port_least_witness :
  (0 <= 8000)%Z
  /\ (find_free_port w_in_use 8000 = Some 8001%Z <->
      (8000 <= 8001 < 65535)%Z /\ w_in_use 8001 = false
      /\ forall r, (8000 <= r < 8001)%Z -> w_in_use r = true).
Proof.
  assert (H : (0 <= 8000)%Z) by lia.
  exact (conj H (find_free_port_least w_in_use 8000 8001 H)).
Defined.

Lemma get_environment_info_server_witness :
  start_local_server w_base w_in_use w_can_bind (T "shop") None w_state
    = (w_started, Ok (Some (T "http://localhost:8001")))
  /\ ((exists i, get_environment_info w_base (T "shop") w_started = (w_started, Ok i)
        /\ info_server_running i = true /\ info_server_url i = Some (T "http://localhost:8001"))
      /\ (exists i, get_environment_info w_base (T "shop") (stop_local_server (T "shop") w_started).1
                   = ((stop_local_server (T "shop") w_started).1, Ok i)
          /\ info_server_running i = false /\ info_server_url i = None)).
Proof.
  assert (H : start_local_server w_base w_in_use w_can_bind (T "shop") None w_state
              = (w_started, Ok (Some (T "http://localhost:8001")))) by vm_refl.
  exact (conj H (get_environment_info_server w_base w_in_use w_can_bind (T "shop") None w_state
                   w_started _ H)).
Defined.

Lemma list_environments_after_create_witness :
  plain_seg (T "shop")
  /\ create_test_environment w_base (T "shop") true w_state_old = (w_created, Ok w_env)
  /\ exists xs, list_environments w_base w_created = (w_created, Ok xs) /\ T "shop" ∈ xs.
Proof.
  assert (H1 : plain_seg (T "shop")) by plain_seg_tac.
  assert (H2 : create_test_environment w_base (T "shop") true w_state_old = (w_created, Ok w_env))
    by vm_refl.
  exact (conj H1 (conj H2 (list_environments_after_create w_base (T "shop") true w_state_old
                             w_created w_env H1 H2))).
Defined.

Lemma list_environments_after_cleanup_witness :
  plain_seg (T "shop")
  /\ cleanup_environment w_base (T "shop") w_state2
     = ((cleanup_environment w_base (T "shop") w_state2).1, Ok tt)
  /\ list_environments w_base (cleanup_environment w_base (T "shop") w_state2).1
     = ((cleanup_environment w_base (T "shop") w_state2).1, Ok [T "cafe"])
  /\ T "shop" ∉ [T "cafe"].
Proof.
  assert (H1 : plain_seg (T "shop")) by plain_seg_tac.
  assert (H2 : cleanup_environment w_base (T "shop") w_state2
               = ((cleanup_environment w_base (T "shop") w_state2).1, Ok tt))
    by vm_refl.
  assert (H3 : list_environments w_base (cleanup_environment w_base (T "shop") w_state2).1
               = ((cleanup_environment w_base (T "shop") w_state2).1, Ok [T "cafe"]))
    by vm_refl.
  exact (conj H1 (conj H2 (conj H3 (list_environments_after_cleanup w_base (T "shop") w_state2
                                      _ _ [T "cafe"] H1 H2 H3)))).
Defined.

Lemma remove_all_environments_empties_witness :
  plain_keys (fs w_state2)
  /\ App.remove_all_environments w_base w_state2 = (w_removed, Ok tt)
  /\ list_environments w_base w_removed = (w_removed, Ok [])
  /\ @nil text = [].
Proof.
  assert (H2 : App.remove_all_environments w_base w_state2 = (w_removed, Ok tt))
    by vm_refl.
  assert (H3 : list_environments w_base w_removed = (w_removed, Ok [])) by vm_refl.
  exact (conj w_state2_plain (conj H2 (conj H3 (remove_all_environments_empties w_base w_state2
                                                  w_removed w_removed [] w_state2_plain H2 H3)))).
Defined.

Lemma list_command_describes_all_witness :
  plain_keys (fs w_state2)
  /\ list_environments w_base w_state2 = (w_state2, Ok [T "shop"; T "cafe"])
  /\ exists infos, App.list_command w_base w_state2 = (w_state2, Ok infos)
    /\ Forall2 (fun x i => info_name i = x /\ info_exists i = true
                 /\ info_server_running i = bool_decide (is_Some (active_servers w_state2 !! x)))
               [T "shop"; T "cafe"] infos.
Proof.
  assert (H2 : list_environments w_base w_state2 = (w_state2, Ok [T "shop"; T "cafe"]))
    by vm_refl.
  exact (conj w_state2_plain (conj H2 (list_command_describes_all w_base w_state2 w_state2 _
                                         w_state2_plain H2))).
Defined.

Lemma create_website_files_writes_witness :
  create_website_files w_env w_site_files w_state = (w_site, Ok tt)
  /\ (active_servers w_site = active_servers w_state /\ log w_site = log w_state
      /\ (forall q, fs w_state !! q = Some Dir -> fs w_site !! q = Some Dir)
      /\ (forall q v, fs w_state !! q = Some v ->
            Forall (fun e => lex (join w_env e.1) <> q) w_site_files -> fs w_site !! q = Some v)
      /\ (forall pre k c post, w_site_files = pre ++ (k, c) :: post ->
            Forall (fun e => lex (join w_env e.1) <> lex (join w_env k)) post ->
            fs w_site !! lex (join w_env k) = Some (File c))).
Proof.
  assert (H : create_website_files w_env w_site_files w_state = (w_site, Ok tt))
    by vm_refl.
  exact (conj H (create_website_files_writes w_env w_site_files w_state w_site H)).
Defined.

Lemma get_environment_info_lists_files_witness :
  plain_seg (T "index.html") /\ In (T "index.html", T "<h1>Hi</h1>") w_site_files
  /\ create_test_environment w_base (T "shop") true w_state_old = (w_created, Ok w_env)
  /\ create_website_files w_env w_site_files w_created = (w_site2, Ok tt)
  /\ exists i, get_environment_info w_base (T "shop") w_site2 = (w_site2, Ok i)
               /\ In (T "index.html") (info_files i).
Proof.
  assert (H1 : plain_seg (T "index.html")) by plain_seg_tac.
  assert (H2 : In (T "index.html", T "<h1>Hi</h1>") w_site_files) by (left; reflexivity).
  assert (H3 : create_test_environment w_base (T "shop") true w_state_old = (w_created, Ok w_env))
    by vm_refl.
  assert (H4 : create_website_files w_env w_site_files w_created = (w_site2, Ok tt))
    by vm_refl.
  exact (conj H1 (conj H2 (conj H3 (conj H4
    (get_environment_info_lists_files w_base (T "shop") true w_site_files (T "index.html")
       (T "<h1>Hi</h1>") w_state_old w_created w_site2 w_env H1 H2 H3 H4))))).
Defined.

Lemma deploy_writes_metadata_witness :
  deploy_to_local_environment w_base w_in_use w_can_bind w_dump w_wd (Some (T "shop")) None 1234
    w_state = (w_shop_deployed, Ok (Some (T "http://localhost:8001")))
  /\ (fs w_shop_deployed !! (lex (join w_base (T "shop")) ++ [T "metadata.json"])
        = Some (File (w_dump (wd_metadata w_wd)))
      /\ exists srv, active_servers w_shop_deployed !! T "shop" = Some srv
                     /\ Some (T "http://localhost:8001") = get_url srv).
Proof.
  assert (H : deploy_to_local_environment w_base w_in_use w_can_bind w_dump w_wd (Some (T "shop"))
                None 1234 w_state = (w_shop_deployed, Ok (Some (T "http://localhost:8001"))))
    by vm_refl.
  exact (conj H (deploy_writes_metadata w_base w_in_use w_can_bind w_dump w_wd (Some (T "shop"))
                   None 1234 w_state w_shop_deployed _ H)).
Defined.

End ExtraFacts.
